(** * Financial projection engine

    A shallow embedding of
    [financial_projections/doctype/financial_projection/financial_projection.py]
    (class [FinancialProjection]) and the properties of its month loop.

    Conventions of the embedding.
    - Currency amounts, volumes and percentages are Python floats in the
      source.  They are embedded as exact rationals ([Qc]); rounding of
      the binary representation is not modelled.
    - Integer document fields (delays, month and year indices) are [Z].
    - A document field that may be unset is an [option]: Python's [None]
      is [None].  Truthiness ([if x], [x or d], [x and y]) is spelled out
      by [truthy_*] and [py_or].
    - [frappe.utils.flt] coerces a value to a float with [0] for an unset
      one: [flt].
    - A Python [dict] is a [gmap]; the methods that mutate the dictionary
      they are handed return the updated dictionary next to their value.
    - Exceptions ([frappe.throw], [IndexError]) are the [Raise] results of
      a small error monad. *)

From Stdlib Require Import ZArith QArith Qcanon Lia.
From stdpp Require Import base option list numbers strings gmap.

Local Open Scope Z_scope.
Local Open Scope Qc_scope.

(** ** Python values *)

(** [float(n)] of an integer. *)
Definition of_int (n : Z) : Qc := Q2Qc (inject_Z n).

(** [flt(x)]: the number itself, [0.0] when unset. *)
Definition flt (x : option Qc) : Qc := default 0 x.

(** [flt(n)] of an integer field, kept in [Z]: conversion to float
    preserves the value and the order of month counts. *)
Definition flt_int (x : option Z) : Z := default 0%Z x.

Definition truthy_str (s : option string) : bool :=
  match s with
  | Some s => negb (String.eqb s "")
  | None => false
  end.

Definition truthy_num (x : option Qc) : bool :=
  match x with
  | Some q => negb (bool_decide (q = 0))
  | None => false
  end.

Definition truthy_int (x : option Z) : bool :=
  match x with
  | Some n => negb (n =? 0)%Z
  | None => false
  end.

Definition truthy_list {A} (l : list A) : bool :=
  match l with
  | [] => false
  | _ :: _ => true
  end.

(** [x or d] on an integer field. *)
Definition py_or (x : option Z) (d : Z) : Z :=
  match x with
  | Some n => if (n =? 0)%Z then d else n
  | None => d
  end.

(** [field == "literal"]. *)
Definition str_is (s : option string) (lit : string) : bool :=
  match s with
  | Some s => String.eqb s lit
  | None => false
  end.

(** [len(l)]. *)
Definition len {A} (l : list A) : Z := Z.of_nat (length l).

(** ** Exceptions *)

Inductive exc : Type :=
  | ValidationError (msg : string)
  | IndexError.

Inductive result (A : Type) : Type :=
  | Ok (a : A)
  | Raise (e : exc).
Arguments Ok {A} a.
Arguments Raise {A} e.

Definition bind {A B} (m : result A) (k : A → result B) : result B :=
  match m with
  | Ok a => k a
  | Raise e => Raise e
  end.

Notation "'do' x <- m ; k" := (bind m (fun x => k))
  (at level 10, x name, m at level 100, k at level 200,
   format "'[v' 'do'  x  <-  m ; '/' k ']'").

(** A [for] loop whose body may raise. *)
Fixpoint for_each {A S} (body : S → A → result S) (l : list A) (s : S)
  : result S :=
  match l with
  | [] => Ok s
  | x :: l' => do s' <- body s x; for_each body l' s'
  end.

(** [l[i]], negative indices counting from the end. *)
Definition py_getitem {A} (l : list A) (i : Z) : result A :=
  let j := if (i <? 0)%Z then (i + len l)%Z else i in
  if (j <? 0)%Z then Raise IndexError
  else match l !! Z.to_nat j with
       | Some x => Ok x
       | None => Raise IndexError
       end.

(** ** Dates *)

Record date := { d_year : Z; d_month : Z; d_day : Z }.

Definition is_leap (y : Z) : bool :=
  ((y mod 4 =? 0) && (negb (y mod 100 =? 0) || (y mod 400 =? 0)))%Z.

Definition days_in_month (y m : Z) : Z :=
  if (m =? 2)%Z then (if is_leap y then 29 else 28)%Z
  else if ((m =? 4) || (m =? 6) || (m =? 9) || (m =? 11))%Z then 30%Z
  else 31%Z.

(** [frappe.utils.add_months] (library code): the calendar month shifted
    by [n], the day clamped to the length of the month reached. *)
Definition add_months (d : date) (n : Z) : date :=
  let idx := (d_year d * 12 + (d_month d - 1) + n)%Z in
  let y := (idx / 12)%Z in
  let m := (idx mod 12 + 1)%Z in
  {| d_year := y; d_month := m; d_day := Z.min (d_day d) (days_in_month y m) |}.

(** ** Assumption lines (child tables) *)

Module Revenue.
Record line := {
  revenue_type : option string;
  calculation_type : option string;
  monthly_new_sales : option Qc;
  price_per_unit : option Qc;
  annual_price_increase : option Qc;
  implementation_months : option Z
}.
End Revenue.

Module Cost.
Record line := {
  cost_type : option string;
  calculation_type : option string;
  cost_per_unit : option Qc;
  cost_percentage : option Qc;
  related_revenue_type : option string
}.
End Cost.

Module Staff.
Record line := {
  position_title : option string;
  monthly_salary : option Qc;
  monthly_benefits : option Qc;
  vehicle_allowance : option Qc;
  annual_increase : option Qc;
  start_month : option Z
}.
End Staff.

Module Capex.
Record line := {
  asset_name : option string;
  cost : option Qc;
  purchase_month : option Z;
  purchase_year : option Z
}.
End Capex.

(** ** Monthly projection rows *)

Module Row.
Record t := {
  month_number : Z;
  month_date : date;
  year_number : Z;
  revenue : Qc;
  cost_of_revenue : Qc;
  gross_profit : Qc;
  operating_expenses : Qc;
  capex : Qc;
  net_income : Qc;
  cash_receipts : Qc;
  cash_payments : Qc;
  net_cash_flow : Qc;
  cash_balance : Qc;
  cumulative_revenue : Qc;
  cumulative_cost : Qc;
  cumulative_gross_profit : Qc
}.
End Row.

(** ** The document *)

Record Summary := {
  total_revenue_y1 : Qc;
  total_revenue_y2 : Qc;
  total_revenue_y3 : Qc;
  total_gross_profit_y1 : Qc;
  total_gross_profit_y2 : Qc;
  total_gross_profit_y3 : Qc;
  total_net_income_y1 : Qc;
  total_net_income_y2 : Qc;
  total_net_income_y3 : Qc
}.

Record FinancialProjection := {
  start_date : date;
  projection_years : option Z;
  cash_on_hand_start : option Qc;
  cash_receipt_delay : option Z;
  cost_of_revenue_delay : option Z;
  opex_delay : option Z;
  capex_delay : option Z;
  revenue_assumptions : list Revenue.line;
  cost_assumptions : list Cost.line;
  staff_assumptions : list Staff.line;
  capex_assumptions : list Capex.line;
  monthly_projections : list Row.t;
  summary : Summary
}.

(** [self.monthly_projections = rows]. *)
Definition set_monthly_projections (rows : list Row.t)
    (self : FinancialProjection) : FinancialProjection :=
  {| start_date := start_date self;
     projection_years := projection_years self;
     cash_on_hand_start := cash_on_hand_start self;
     cash_receipt_delay := cash_receipt_delay self;
     cost_of_revenue_delay := cost_of_revenue_delay self;
     opex_delay := opex_delay self;
     capex_delay := capex_delay self;
     revenue_assumptions := revenue_assumptions self;
     cost_assumptions := cost_assumptions self;
     staff_assumptions := staff_assumptions self;
     capex_assumptions := capex_assumptions self;
     monthly_projections := rows;
     summary := summary self |}.

(** Assignment of the nine [self.total_*] fields. *)
Definition set_summary (s : Summary)
    (self : FinancialProjection) : FinancialProjection :=
  {| start_date := start_date self;
     projection_years := projection_years self;
     cash_on_hand_start := cash_on_hand_start self;
     cash_receipt_delay := cash_receipt_delay self;
     cost_of_revenue_delay := cost_of_revenue_delay self;
     opex_delay := opex_delay self;
     capex_delay := capex_delay self;
     revenue_assumptions := revenue_assumptions self;
     cost_assumptions := cost_assumptions self;
     staff_assumptions := staff_assumptions self;
     capex_assumptions := capex_assumptions self;
     monthly_projections := monthly_projections self;
     summary := s |}.

(** ** Revenue *)

(** [get_monthly_instances]: adds the line's new sales to the carried
    volume of its revenue type and returns the new volume together with
    the mutated dictionary. *)
Definition get_monthly_instances (revenue_line : Revenue.line)
    (month_num year_num : Z) (carried_instances : gmap (option string) Qc)
  : Qc * gmap (option string) Qc :=
  let key := Revenue.revenue_type revenue_line in
  let new_sales := flt (Revenue.monthly_new_sales revenue_line) in
  let carried_instances :=
    match carried_instances !! key with
    | None => <[key := 0]> carried_instances
    | Some _ => carried_instances
    end in
  let carried_instances :=
    <[key := default 0 (carried_instances !! key) + new_sales]>
      carried_instances in
  (default 0 (carried_instances !! key), carried_instances).

(** [get_monthly_price]. *)
Definition get_monthly_price (revenue_line : Revenue.line) (year_num : Z)
  : Qc :=
  let base_price := flt (Revenue.price_per_unit revenue_line) in
  if truthy_num (Revenue.annual_price_increase revenue_line)
     && (1 <? year_num)%Z
  then
    let increase_factor :=
      (1 + flt (Revenue.annual_price_increase revenue_line) / of_int 100)
      ^ Z.to_nat (year_num - 1) in
    base_price * increase_factor
  else base_price.

(** The [if]/[elif] chain of [calculate_monthly_revenue] that sets
    [monthly_revenue] for one line. *)
Definition monthly_revenue (revenue_line : Revenue.line) (month_in_year : Z)
    (instances price : Qc) : Qc :=
  if str_is (Revenue.calculation_type revenue_line) "Recurring" then
    instances * price
  else if str_is (Revenue.calculation_type revenue_line) "One-Time" then
    let implementation_months :=
      default 0%Z (Revenue.implementation_months revenue_line) in
    if truthy_int (Revenue.implementation_months revenue_line)
       && (0 <? implementation_months)%Z
    then
      if (month_in_year <=? implementation_months)%Z
      then (instances * price) / of_int implementation_months
      else 0
    else if (month_in_year =? 1)%Z then instances * price else 0
  else 0.

(** One iteration of the loop of [calculate_monthly_revenue], on the pair
    of [total_revenue] and the dictionary. *)
Definition revenue_line_body (month_num year_num month_in_year : Z)
    (acc : Qc * gmap (option string) Qc) (revenue_line : Revenue.line)
  : Qc * gmap (option string) Qc :=
  let '(total_revenue, carried_instances) := acc in
  if negb (truthy_str (Revenue.revenue_type revenue_line)) then acc
  else
    let '(instances, carried_instances) :=
      get_monthly_instances revenue_line month_num year_num
        carried_instances in
    let price := get_monthly_price revenue_line year_num in
    (total_revenue
     + monthly_revenue revenue_line month_in_year instances price,
     carried_instances).

Definition calculate_monthly_revenue (self : FinancialProjection)
    (month_num year_num month_in_year : Z)
    (carried_instances : gmap (option string) Qc)
  : Qc * gmap (option string) Qc :=
  fold_left (revenue_line_body month_num year_num month_in_year)
    (revenue_assumptions self) (0, carried_instances).

(** ** Cost of revenue *)

(** [get_cost_instances]. *)
Definition get_cost_instances (cost_line : Cost.line) (month_num year_num : Z)
    (carried_instances : gmap (option string) Qc) : Qc :=
  if truthy_str (Cost.related_revenue_type cost_line) then
    default 0 (carried_instances !! Cost.related_revenue_type cost_line)
  else 0.

(** [get_related_revenue]: reads the rows appended so far. *)
Definition get_related_revenue (self : FinancialProjection) (month_num : Z)
    (revenue_type : option string) : result Qc :=
  if truthy_list (monthly_projections self)
     && (month_num <=? len (monthly_projections self))%Z
  then
    if (month_num <=? len (monthly_projections self))%Z then
      do row <- py_getitem (monthly_projections self) (month_num - 1);
      Ok (Row.revenue row)
    else Ok 0
  else Ok 0.

(** The [if]/[elif] chain of [calculate_monthly_cost] that sets
    [monthly_cost] for one line. *)
Definition monthly_cost (self : FinancialProjection) (month_num : Z)
    (cost_line : Cost.line) (instances : Qc) : result Qc :=
  if str_is (Cost.calculation_type cost_line) "Per Instance" then
    Ok (instances * flt (Cost.cost_per_unit cost_line))
  else if str_is (Cost.calculation_type cost_line) "Fixed Monthly" then
    Ok (flt (Cost.cost_per_unit cost_line))
  else if str_is (Cost.calculation_type cost_line) "Percentage of Revenue" then
    do revenue <- get_related_revenue self month_num
                    (Cost.related_revenue_type cost_line);
    Ok (revenue * (flt (Cost.cost_percentage cost_line) / of_int 100))
  else Ok 0.

Definition cost_line_body (self : FinancialProjection)
    (month_num year_num : Z) (carried_instances : gmap (option string) Qc)
    (total_cost : Qc) (cost_line : Cost.line) : result Qc :=
  if negb (truthy_str (Cost.cost_type cost_line)) then Ok total_cost
  else
    let instances :=
      get_cost_instances cost_line month_num year_num carried_instances in
    do c <- monthly_cost self month_num cost_line instances;
    Ok (total_cost + c).

Definition calculate_monthly_cost (self : FinancialProjection)
    (month_num year_num month_in_year : Z)
    (carried_instances : gmap (option string) Qc) : result Qc :=
  for_each (cost_line_body self month_num year_num carried_instances)
    (cost_assumptions self) 0.

(** ** Operating expenses and capital expenditure *)

Definition staff_line_body (month_num year_num : Z) (total_opex : Qc)
    (staff_line : Staff.line) : Qc :=
  if negb (truthy_str (Staff.position_title staff_line)) then total_opex
  else
    let start_month := py_or (Staff.start_month staff_line) 1 in
    if (start_month <=? month_num)%Z then
      let base_salary := flt (Staff.monthly_salary staff_line) in
      let benefits := flt (Staff.monthly_benefits staff_line) in
      let vehicle := flt (Staff.vehicle_allowance staff_line) in
      let base_salary :=
        if truthy_num (Staff.annual_increase staff_line) && (1 <? year_num)%Z
        then
          let increase_factor :=
            (1 + flt (Staff.annual_increase staff_line) / of_int 100)
            ^ Z.to_nat (year_num - 1) in
          base_salary * increase_factor
        else base_salary in
      let monthly_cost := base_salary + benefits + vehicle in
      total_opex + monthly_cost
    else total_opex.

Definition calculate_monthly_opex (self : FinancialProjection)
    (month_num year_num month_in_year : Z) : Qc :=
  fold_left (staff_line_body month_num year_num) (staff_assumptions self) 0.

Definition capex_line_body (month_num : Z) (total_capex : Qc)
    (capex_line : Capex.line) : Qc :=
  if negb (truthy_str (Capex.asset_name capex_line)) then total_capex
  else
    let purchase_month := py_or (Capex.purchase_month capex_line) 1 in
    let purchase_year := py_or (Capex.purchase_year capex_line) 1 in
    let target_month := ((purchase_year - 1) * 12 + purchase_month)%Z in
    if (month_num =? target_month)%Z
    then total_capex + flt (Capex.cost capex_line)
    else total_capex.

Definition calculate_monthly_capex (self : FinancialProjection)
    (month_num year_num month_in_year : Z) : Qc :=
  fold_left (capex_line_body month_num) (capex_assumptions self) 0.

(** ** Cash timing *)

Definition calculate_cash_receipts (self : FinancialProjection)
    (month_num : Z) (revenue : Qc) : Qc :=
  let delay := flt_int (cash_receipt_delay self) in
  if (delay =? 0)%Z then revenue
  else if (delay <? month_num)%Z then revenue else 0.

Definition calculate_cash_payments_cor (self : FinancialProjection)
    (month_num : Z) (cost : Qc) : Qc :=
  let delay := flt_int (cost_of_revenue_delay self) in
  if (delay =? 0)%Z then cost
  else if (delay <? month_num)%Z then cost else 0.

Definition calculate_cash_payments_opex (self : FinancialProjection)
    (month_num : Z) (opex : Qc) : Qc :=
  let delay := flt_int (opex_delay self) in
  if (delay =? 0)%Z then opex
  else if (delay <? month_num)%Z then opex else 0.

Definition calculate_cash_payments_capex (self : FinancialProjection)
    (month_num : Z) (capex : Qc) : Qc :=
  let delay := flt_int (capex_delay self) in
  if (delay =? 0)%Z then capex
  else if (delay <? month_num)%Z then capex else 0.

(** ** Year summary *)

(** The three dictionaries of [update_summary_fields], and one iteration
    of its loop over the rows. *)
Definition year_totals : Type :=
  gmap Z Qc * gmap Z Qc * gmap Z Qc.

Definition year_zero : gmap Z Qc :=
  <[1%Z := 0]> (<[2%Z := 0]> (<[3%Z := 0]> ∅)).

Definition summary_row_body (acc : year_totals) (row : Row.t) : year_totals :=
  let '(year_revenue, year_gross_profit, year_net_income) := acc in
  let year := Row.year_number row in
  if bool_decide (is_Some (year_revenue !! year)) then
    (alter (λ v, v + Row.revenue row) year year_revenue,
     alter (λ v, v + Row.gross_profit row) year year_gross_profit,
     alter (λ v, v + Row.net_income row) year year_net_income)
  else acc.

Definition update_summary_fields (self : FinancialProjection)
  : FinancialProjection :=
  if negb (truthy_list (monthly_projections self)) then self
  else
    let '(year_revenue, year_gross_profit, year_net_income) :=
      fold_left summary_row_body (monthly_projections self)
        (year_zero, year_zero, year_zero) in
    set_summary
      {| total_revenue_y1 := default 0 (year_revenue !! 1%Z);
         total_revenue_y2 := default 0 (year_revenue !! 2%Z);
         total_revenue_y3 := default 0 (year_revenue !! 3%Z);
         total_gross_profit_y1 := default 0 (year_gross_profit !! 1%Z);
         total_gross_profit_y2 := default 0 (year_gross_profit !! 2%Z);
         total_gross_profit_y3 := default 0 (year_gross_profit !! 3%Z);
         total_net_income_y1 := default 0 (year_net_income !! 1%Z);
         total_net_income_y2 := default 0 (year_net_income !! 2%Z);
         total_net_income_y3 := default 0 (year_net_income !! 3%Z) |}
      self.

(** ** The month loop *)

(** The local variables of [calculate_projections] that live across
    iterations, with the document whose row list grows. *)
Module Loop.
Record state := {
  self : FinancialProjection;
  cumulative_revenue : Qc;
  cumulative_cost : Qc;
  cumulative_gross_profit : Qc;
  cumulative_opex : Qc;
  cumulative_net_income : Qc;
  cash_balance : Qc;
  carried_instances : gmap (option string) Qc
}.
End Loop.

(** [self.append('monthly_projections', row)]. *)
Definition append_row (row : Row.t) (self : FinancialProjection)
  : FinancialProjection :=
  set_monthly_projections (monthly_projections self ++ [row]) self.

(** The body of [for month_num in range(1, total_months + 1)]. *)
Definition month_body (st : Loop.state) (month_num : Z) : result Loop.state :=
  let self := Loop.self st in
  let month_date := add_months (start_date self) (month_num - 1) in
  let year_num := ((month_num - 1) / 12 + 1)%Z in
  let month_in_year := ((month_num - 1) mod 12 + 1)%Z in
  let '(revenue, carried_instances) :=
    calculate_monthly_revenue self month_num year_num month_in_year
      (Loop.carried_instances st) in
  do cost_of_revenue <-
    calculate_monthly_cost self month_num year_num month_in_year
      carried_instances;
  let gross_profit := revenue - cost_of_revenue in
  let opex := calculate_monthly_opex self month_num year_num month_in_year in
  let capex := calculate_monthly_capex self month_num year_num month_in_year in
  let net_income := gross_profit - opex in
  let cash_receipts := calculate_cash_receipts self month_num revenue in
  let cash_payments_cor :=
    calculate_cash_payments_cor self month_num cost_of_revenue in
  let cash_payments_opex := calculate_cash_payments_opex self month_num opex in
  let cash_payments_capex :=
    calculate_cash_payments_capex self month_num capex in
  let net_cash_flow :=
    cash_receipts - cash_payments_cor - cash_payments_opex
    - cash_payments_capex in
  let cash_balance := Loop.cash_balance st + net_cash_flow in
  let cumulative_revenue := Loop.cumulative_revenue st + revenue in
  let cumulative_cost := Loop.cumulative_cost st + cost_of_revenue in
  let cumulative_gross_profit :=
    Loop.cumulative_gross_profit st + gross_profit in
  let cumulative_opex := Loop.cumulative_opex st + opex in
  let cumulative_net_income := Loop.cumulative_net_income st + net_income in
  let monthly_row :=
    {| Row.month_number := month_num;
       Row.month_date := month_date;
       Row.year_number := year_num;
       Row.revenue := revenue;
       Row.cost_of_revenue := cost_of_revenue;
       Row.gross_profit := gross_profit;
       Row.operating_expenses := opex;
       Row.capex := capex;
       Row.net_income := net_income;
       Row.cash_receipts := cash_receipts;
       Row.cash_payments :=
         cash_payments_cor + cash_payments_opex + cash_payments_capex;
       Row.net_cash_flow := net_cash_flow;
       Row.cash_balance := cash_balance;
       Row.cumulative_revenue := cumulative_revenue;
       Row.cumulative_cost := cumulative_cost;
       Row.cumulative_gross_profit := cumulative_gross_profit |} in
  Ok {| Loop.self := append_row monthly_row self;
        Loop.cumulative_revenue := cumulative_revenue;
        Loop.cumulative_cost := cumulative_cost;
        Loop.cumulative_gross_profit := cumulative_gross_profit;
        Loop.cumulative_opex := cumulative_opex;
        Loop.cumulative_net_income := cumulative_net_income;
        Loop.cash_balance := cash_balance;
        Loop.carried_instances := carried_instances |}.

(** [(self.projection_years or 3) * 12]. *)
Definition total_months (self : FinancialProjection) : Z :=
  (py_or (projection_years self) 3 * 12)%Z.

(** The state on entry to the loop: rows cleared, totals zero, the cash
    balance at its opening value, no carried volume. *)
Definition loop_init (self : FinancialProjection) : Loop.state :=
  {| Loop.self := set_monthly_projections [] self;
     Loop.cumulative_revenue := 0;
     Loop.cumulative_cost := 0;
     Loop.cumulative_gross_profit := 0;
     Loop.cumulative_opex := 0;
     Loop.cumulative_net_income := 0;
     Loop.cash_balance := flt (cash_on_hand_start self);
     Loop.carried_instances := ∅ |}.

Definition calculate_projections (self : FinancialProjection)
  : result FinancialProjection :=
  do st <- for_each month_body (seqZ 1 (total_months self)) (loop_init self);
  Ok (update_summary_fields (Loop.self st)).

(** ** Validation and the save hooks *)

Definition validate_delays (self : FinancialProjection) : result unit :=
  do _ <-
    (if truthy_int (opex_delay self)
        && ((default 0 (opex_delay self) <? 0)
            || (6 <? default 0 (opex_delay self)))%Z
     then Raise (ValidationError "OPEX Delay must be between 0 and 6 months")
     else Ok ());
  if truthy_int (capex_delay self)
     && ((default 0 (capex_delay self) <? 0)
         || (6 <? default 0 (capex_delay self)))%Z
  then Raise (ValidationError "CAPEX Delay must be between 0 and 6 months")
  else Ok ().

Definition validate (self : FinancialProjection) : result unit :=
  validate_delays self.

Definition before_save (self : FinancialProjection)
  : result FinancialProjection :=
  calculate_projections self.

(** Modelled from the spec: the save lifecycle of the surrounding
    framework, which is not part of the repository.  It runs the
    [validate] hook, then the [before_save] hook; an exception raised by
    validation rejects the save and nothing later runs. *)
Definition save (self : FinancialProjection) : result FinancialProjection :=
  do _ <- validate self;
  before_save self.

(** ** Vocabulary of the specification *)

(** The sum of one column over a sequence of rows. *)
Definition total (f : Row.t → Qc) (rows : list Row.t) : Qc :=
  foldr (λ row acc, f row + acc) 0 rows.

(** The sum of one column over exactly the rows of year [y]. *)
Definition year_total (f : Row.t → Qc) (y : Z) (rows : list Row.t) : Qc :=
  total f (filter (λ row, Row.year_number row = y) rows).

(** The summary fields are the per-year sums of the rows of a document. *)
Definition summary_matches_rows (self : FinancialProjection) : Prop :=
  let rows := monthly_projections self in
  let s := summary self in
  total_revenue_y1 s = year_total Row.revenue 1 rows
  ∧ total_revenue_y2 s = year_total Row.revenue 2 rows
  ∧ total_revenue_y3 s = year_total Row.revenue 3 rows
  ∧ total_gross_profit_y1 s = year_total Row.gross_profit 1 rows
  ∧ total_gross_profit_y2 s = year_total Row.gross_profit 2 rows
  ∧ total_gross_profit_y3 s = year_total Row.gross_profit 3 rows
  ∧ total_net_income_y1 s = year_total Row.net_income 1 rows
  ∧ total_net_income_y2 s = year_total Row.net_income 2 rows
  ∧ total_net_income_y3 s = year_total Row.net_income 3 rows.

(** A delay field holds a value outside of [0..6]. *)
Definition out_of_range (x : option Z) : Prop :=
  ∃ n, x = Some n ∧ (n < 0 ∨ 6 < n)%Z.

(** A delay field is unset or holds a value of [0..6]. *)
Definition in_range (x : option Z) : Prop :=
  x = None ∨ ∃ n, x = Some n ∧ (0 ≤ n ≤ 6)%Z.

(** [month_in_year] and [year_num] as the month loop derives them. *)
Definition month_in_year_of (month_num : Z) : Z :=
  ((month_num - 1) mod 12 + 1)%Z.

Definition year_num_of (month_num : Z) : Z :=
  ((month_num - 1) / 12 + 1)%Z.

(** The first [k] iterations of the month loop. *)
Definition run_months (self : FinancialProjection) (k : nat)
  : result Loop.state :=
  for_each month_body (seqZ 1 (Z.of_nat k)) (loop_init self).

(** ** Sample documents *)

Definition no_summary : Summary :=
  {| total_revenue_y1 := 0; total_revenue_y2 := 0; total_revenue_y3 := 0;
     total_gross_profit_y1 := 0; total_gross_profit_y2 := 0;
     total_gross_profit_y3 := 0;
     total_net_income_y1 := 0; total_net_income_y2 := 0;
     total_net_income_y3 := 0 |}.

Definition subscriptions : Revenue.line :=
  {| Revenue.revenue_type := Some "Subscriptions"%string;
     Revenue.calculation_type := Some "Recurring"%string;
     Revenue.monthly_new_sales := Some (of_int 5);
     Revenue.price_per_unit := Some (of_int 200);
     Revenue.annual_price_increase := None;
     Revenue.implementation_months := None |}.

Definition setup_fee : Revenue.line :=
  {| Revenue.revenue_type := Some "Subscriptions"%string;
     Revenue.calculation_type := Some "One-Time"%string;
     Revenue.monthly_new_sales := Some (of_int 2);
     Revenue.price_per_unit := Some (of_int 300);
     Revenue.annual_price_increase := Some (of_int 10);
     Revenue.implementation_months := Some 3%Z |}.

Definition consulting : Revenue.line :=
  {| Revenue.revenue_type := Some "Consulting"%string;
     Revenue.calculation_type := Some "One-Time"%string;
     Revenue.monthly_new_sales := Some (of_int 1);
     Revenue.price_per_unit := Some (of_int 4000);
     Revenue.annual_price_increase := None;
     Revenue.implementation_months := None |}.

Definition draft_revenue : Revenue.line :=
  {| Revenue.revenue_type := None;
     Revenue.calculation_type := Some "Recurring"%string;
     Revenue.monthly_new_sales := Some (of_int 9);
     Revenue.price_per_unit := Some (of_int 9);
     Revenue.annual_price_increase := None;
     Revenue.implementation_months := None |}.

Definition hosting_share : Cost.line :=
  {| Cost.cost_type := Some "Hosting"%string;
     Cost.calculation_type := Some "Percentage of Revenue"%string;
     Cost.cost_per_unit := None;
     Cost.cost_percentage := Some (of_int 50);
     Cost.related_revenue_type := Some "Subscriptions"%string |}.

Definition unnamed_cost : Cost.line :=
  {| Cost.cost_type := None;
     Cost.calculation_type := Some "Fixed Monthly"%string;
     Cost.cost_per_unit := Some (of_int 900);
     Cost.cost_percentage := None;
     Cost.related_revenue_type := None |}.

Definition engineer : Staff.line :=
  {| Staff.position_title := Some "Engineer"%string;
     Staff.monthly_salary := Some (of_int 1000);
     Staff.monthly_benefits := Some (of_int 150);
     Staff.vehicle_allowance := Some (of_int 50);
     Staff.annual_increase := Some (of_int 10);
     Staff.start_month := Some 4%Z |}.

Definition unnamed_staff : Staff.line :=
  {| Staff.position_title := Some ""%string;
     Staff.monthly_salary := Some (of_int 7000);
     Staff.monthly_benefits := None;
     Staff.vehicle_allowance := None;
     Staff.annual_increase := None;
     Staff.start_month := None |}.

Definition van : Capex.line :=
  {| Capex.asset_name := Some "Van"%string;
     Capex.cost := Some (of_int 25000);
     Capex.purchase_month := Some 3%Z;
     Capex.purchase_year := None |}.

Definition unnamed_asset : Capex.line :=
  {| Capex.asset_name := None;
     Capex.cost := Some (of_int 40000);
     Capex.purchase_month := Some 2%Z;
     Capex.purchase_year := Some 1%Z |}.

Definition sample (years : option Z) (revenue_lines : list Revenue.line)
    (cost_lines : list Cost.line) (staff_lines : list Staff.line)
    (capex_lines : list Capex.line) (s : Summary) : FinancialProjection :=
  {| start_date := {| d_year := 2024; d_month := 1; d_day := 31 |};
     projection_years := years;
     cash_on_hand_start := Some (of_int 500);
     cash_receipt_delay := Some 2%Z;
     cost_of_revenue_delay := None;
     opex_delay := Some 1%Z;
     capex_delay := Some 0%Z;
     revenue_assumptions := revenue_lines;
     cost_assumptions := cost_lines;
     staff_assumptions := staff_lines;
     capex_assumptions := capex_lines;
     monthly_projections := [];
     summary := s |}.

(** One year of subscriptions with a cost line that is a percentage of
    revenue. *)
Definition percentage_doc : FinancialProjection :=
  sample (Some 1%Z) [subscriptions] [hosting_share] [engineer] [] no_summary.

(** The same document with three lines whose name is not filled in. *)
Definition draft_doc : FinancialProjection :=
  sample (Some 1%Z) [subscriptions] [unnamed_cost; hosting_share]
    [engineer; unnamed_staff] [unnamed_asset; van] no_summary.

Definition clean_doc : FinancialProjection :=
  sample (Some 1%Z) [subscriptions] [hosting_share] [engineer] [van]
    no_summary.

(** A document whose OPEX delay is seven months. *)
Definition late_opex_doc : FinancialProjection :=
  {| start_date := {| d_year := 2024; d_month := 1; d_day := 31 |};
     projection_years := Some 1%Z;
     cash_on_hand_start := None;
     cash_receipt_delay := None;
     cost_of_revenue_delay := None;
     opex_delay := Some 7%Z;
     capex_delay := Some 6%Z;
     revenue_assumptions := [subscriptions];
     cost_assumptions := [];
     staff_assumptions := [engineer];
     capex_assumptions := [];
     monthly_projections := [];
     summary := no_summary |}.

(** A document without any cash delay. *)
Definition prompt_doc : FinancialProjection :=
  {| start_date := {| d_year := 2024; d_month := 1; d_day := 31 |};
     projection_years := Some 2%Z;
     cash_on_hand_start := Some (of_int 500);
     cash_receipt_delay := None;
     cost_of_revenue_delay := Some 0%Z;
     opex_delay := None;
     capex_delay := Some 0%Z;
     revenue_assumptions := [subscriptions];
     cost_assumptions := [hosting_share];
     staff_assumptions := [engineer];
     capex_assumptions := [van];
     monthly_projections := [];
     summary := no_summary |}.

(** A document whose two validated delays are both out of range, with a
    cash receipt delay far beyond the horizon. *)
Definition late_both_doc : FinancialProjection :=
  {| start_date := {| d_year := 2024; d_month := 1; d_day := 31 |};
     projection_years := Some 1%Z;
     cash_on_hand_start := None;
     cash_receipt_delay := Some 40%Z;
     cost_of_revenue_delay := Some (-3)%Z;
     opex_delay := Some 9%Z;
     capex_delay := Some (-2)%Z;
     revenue_assumptions := [subscriptions];
     cost_assumptions := [];
     staff_assumptions := [engineer];
     capex_assumptions := [];
     monthly_projections := [];
     summary := no_summary |}.

(** A named revenue line whose calculation type is not filled in. *)
Definition untyped_revenue : Revenue.line :=
  {| Revenue.revenue_type := Some "Subscriptions"%string;
     Revenue.calculation_type := None;
     Revenue.monthly_new_sales := Some (of_int 4);
     Revenue.price_per_unit := Some (of_int 70);
     Revenue.annual_price_increase := None;
     Revenue.implementation_months := None |}.

(** A two-year document with a One-Time line spread over three months and
    a line without calculation type, both of the revenue type of the first
    line, and the same document with the given staffing lines. *)
Definition two_year_doc (staff_lines : list Staff.line) : FinancialProjection :=
  {| start_date := {| d_year := 2024; d_month := 1; d_day := 31 |};
     projection_years := Some 2%Z;
     cash_on_hand_start := Some (of_int 500);
     cash_receipt_delay := Some 1%Z;
     cost_of_revenue_delay := None;
     opex_delay := None;
     capex_delay := None;
     revenue_assumptions := [subscriptions; untyped_revenue; setup_fee];
     cost_assumptions := [hosting_share];
     staff_assumptions := staff_lines;
     capex_assumptions := [van];
     monthly_projections := [];
     summary := no_summary |}.

(** Two revenue lines of one revenue type, among other lines. *)
Definition shared_type_doc : FinancialProjection :=
  sample (Some 1%Z) [consulting; subscriptions; draft_revenue; setup_fee] []
    [engineer] [] no_summary.

(** A document saved once with a one-year horizon, whose year-1 revenue
    total was 78000, and then edited to a negative horizon. *)
Definition stale_doc : FinancialProjection :=
  sample (Some (-1)%Z) [subscriptions] [] [engineer] []
    {| total_revenue_y1 := of_int 78000; total_revenue_y2 := 0;
       total_revenue_y3 := 0;
       total_gross_profit_y1 := of_int 78000; total_gross_profit_y2 := 0;
       total_gross_profit_y3 := 0;
       total_net_income_y1 := of_int 67200; total_net_income_y2 := 0;
       total_net_income_y3 := 0 |}.

(** A row with the given month, year, revenue, cost of revenue and
    operating expenses; the cash columns are not filled in. *)
Definition sample_row (month year : Z) (revenue cost opex : Qc) : Row.t :=
  {| Row.month_number := month;
     Row.month_date := add_months {| d_year := 2024; d_month := 1; d_day := 31 |}
                         (month - 1);
     Row.year_number := year;
     Row.revenue := revenue;
     Row.cost_of_revenue := cost;
     Row.gross_profit := revenue - cost;
     Row.operating_expenses := opex;
     Row.capex := 0;
     Row.net_income := revenue - cost - opex;
     Row.cash_receipts := 0;
     Row.cash_payments := 0;
     Row.net_cash_flow := 0;
     Row.cash_balance := 0;
     Row.cumulative_revenue := 0;
     Row.cumulative_cost := 0;
     Row.cumulative_gross_profit := 0 |}.

(** A document holding rows of years 1, 2 and 4, and the same document
    without the row of year 4. *)
Definition four_year_doc : FinancialProjection :=
  set_monthly_projections
    [sample_row 1 1 (of_int 1000) (of_int 100) (of_int 300);
     sample_row 37 4 (of_int 9000) (of_int 900) (of_int 300);
     sample_row 13 2 (of_int 2000) (of_int 200) (of_int 300)]
    stale_doc.

Definition three_year_doc : FinancialProjection :=
  set_monthly_projections
    [sample_row 1 1 (of_int 1000) (of_int 100) (of_int 300);
     sample_row 13 2 (of_int 2000) (of_int 200) (of_int 300)]
    stale_doc.

(** ** Vocabulary of the proofs *)

(** The row appended by one iteration and the state it leaves, given the
    month's revenue, the dictionary after the revenue pass and the cost of
    revenue. *)
Definition month_row (st : Loop.state) (month_num : Z)
    (revenue cost_of_revenue : Qc) : Row.t :=
  let self := Loop.self st in
  let year_num := ((month_num - 1) / 12 + 1)%Z in
  let month_in_year := ((month_num - 1) mod 12 + 1)%Z in
  let gross_profit := revenue - cost_of_revenue in
  let opex := calculate_monthly_opex self month_num year_num month_in_year in
  let capex := calculate_monthly_capex self month_num year_num month_in_year in
  let cash_receipts := calculate_cash_receipts self month_num revenue in
  let cash_payments_cor :=
    calculate_cash_payments_cor self month_num cost_of_revenue in
  let cash_payments_opex := calculate_cash_payments_opex self month_num opex in
  let cash_payments_capex :=
    calculate_cash_payments_capex self month_num capex in
  let net_cash_flow :=
    cash_receipts - cash_payments_cor - cash_payments_opex
    - cash_payments_capex in
  {| Row.month_number := month_num;
     Row.month_date := add_months (start_date self) (month_num - 1);
     Row.year_number := year_num;
     Row.revenue := revenue;
     Row.cost_of_revenue := cost_of_revenue;
     Row.gross_profit := gross_profit;
     Row.operating_expenses := opex;
     Row.capex := capex;
     Row.net_income := gross_profit - opex;
     Row.cash_receipts := cash_receipts;
     Row.cash_payments :=
       cash_payments_cor + cash_payments_opex + cash_payments_capex;
     Row.net_cash_flow := net_cash_flow;
     Row.cash_balance := Loop.cash_balance st + net_cash_flow;
     Row.cumulative_revenue := Loop.cumulative_revenue st + revenue;
     Row.cumulative_cost := Loop.cumulative_cost st + cost_of_revenue;
     Row.cumulative_gross_profit :=
       Loop.cumulative_gross_profit st + gross_profit |}.

Definition month_next (st : Loop.state) (month_num : Z) (revenue : Qc)
    (carried : gmap (option string) Qc) (cost_of_revenue : Qc) : Loop.state :=
  let row := month_row st month_num revenue cost_of_revenue in
  {| Loop.self := append_row row (Loop.self st);
     Loop.cumulative_revenue := Row.cumulative_revenue row;
     Loop.cumulative_cost := Row.cumulative_cost row;
     Loop.cumulative_gross_profit := Row.cumulative_gross_profit row;
     Loop.cumulative_opex :=
       Loop.cumulative_opex st + Row.operating_expenses row;
     Loop.cumulative_net_income :=
       Loop.cumulative_net_income st + Row.net_income row;
     Loop.cash_balance := Row.cash_balance row;
     Loop.carried_instances := carried |}.

(** The loop state over a document whose summary fields hold [s]. *)
Definition with_summary (s : Summary) (st : Loop.state) : Loop.state :=
  {| Loop.self := set_summary s (Loop.self st);
     Loop.cumulative_revenue := Loop.cumulative_revenue st;
     Loop.cumulative_cost := Loop.cumulative_cost st;
     Loop.cumulative_gross_profit := Loop.cumulative_gross_profit st;
     Loop.cumulative_opex := Loop.cumulative_opex st;
     Loop.cumulative_net_income := Loop.cumulative_net_income st;
     Loop.cash_balance := Loop.cash_balance st;
     Loop.carried_instances := Loop.carried_instances st |}.

(** The dictionaries of [update_summary_fields] keep exactly the keys
    1, 2 and 3. *)
Definition three_years (d : gmap Z Qc) : Prop :=
  ∀ y, is_Some (d !! y) ↔ (y = 1 ∨ y = 2 ∨ y = 3)%Z.

(** The sum of a list of amounts. *)
Definition sum_amounts (amounts : list Qc) : Qc := foldr Qcplus 0 amounts.

(** One pass of the loop of [calculate_monthly_revenue] line by line: what
    each line adds to [total_revenue] (nothing for a line that is passed
    over), in list order, and the dictionary after the pass. *)
Fixpoint revenue_contributions (month_num year_num month_in_year : Z)
    (lines : list Revenue.line) (carried : gmap (option string) Qc)
  : list Qc * gmap (option string) Qc :=
  match lines with
  | [] => ([], carried)
  | line :: lines =>
      let step :=
        revenue_line_body month_num year_num month_in_year (0, carried) line in
      let rest :=
        revenue_contributions month_num year_num month_in_year lines step.2 in
      (step.1 :: rest.1, rest.2)
  end.

(** A revenue line that does not touch the carried entry [key]: it has no
    revenue type or another one. *)
Definition other_type (key : option string) (line : Revenue.line) : Prop :=
  truthy_str (Revenue.revenue_type line) = false
  ∨ Revenue.revenue_type line ≠ key.

(** What one iteration of the month loop has to establish for a state
    invariant [I] and a property [Q] of the appended row: the shape of the
    induction over the loop. *)
Definition loop_step (self : FinancialProjection)
    (I : nat → list Row.t → Loop.state → Prop)
    (Q : list Row.t → Row.t → Prop) : Prop :=
  ∀ k st rows revenue carried cost,
    run_months self k = Ok st →
    Loop.self st = set_monthly_projections rows self →
    length rows = k →
    I k rows st →
    calculate_monthly_revenue self (Z.of_nat (S k))
      (year_num_of (Z.of_nat (S k))) (month_in_year_of (Z.of_nat (S k)))
      (Loop.carried_instances st) = (revenue, carried) →
    calculate_monthly_cost (set_monthly_projections rows self)
      (Z.of_nat (S k)) (year_num_of (Z.of_nat (S k)))
      (month_in_year_of (Z.of_nat (S k))) carried = Ok cost →
    let row := month_row st (Z.of_nat (S k)) revenue cost in
    I (S k) (rows ++ [row])
      (month_next st (Z.of_nat (S k)) revenue carried cost)
    ∧ Q rows row.

(** The new sales that the named lines of revenue type [key] add to the
    carried entry of that type in one pass. *)
Definition type_sales (lines : list Revenue.line) (key : option string) : Qc :=
  sum_amounts
    ((λ line, flt (Revenue.monthly_new_sales line))
       <$> filter (λ line, truthy_str (Revenue.revenue_type line) = true
                           ∧ Revenue.revenue_type line = key) lines).

(** The volume on which line number [i] of the revenue lines is priced in
    month [m]: the sales of the earlier months of all named lines of its
    revenue type, and the sales of month [m] of those lines up to and
    including the line itself. *)
Definition line_volume (lines : list Revenue.line) (m : Z) (i : nat)
    (line : Revenue.line) : Qc :=
  of_int (m - 1) * type_sales lines (Revenue.revenue_type line)
  + type_sales (take (S i) lines) (Revenue.revenue_type line).

(** The revenue of line number [i] in month [m] as a function of the
    assumptions alone. *)
Definition revenue_amount (lines : list Revenue.line) (m : Z) (i : nat)
    (line : Revenue.line) : Qc :=
  if truthy_str (Revenue.revenue_type line) then
    monthly_revenue line (month_in_year_of m) (line_volume lines m i line)
      (get_monthly_price line (year_num_of m))
  else 0.

(** The cost of one cost line in month [m] as a function of the
    assumptions alone. *)
Definition cost_amount (self : FinancialProjection) (m : Z)
    (line : Cost.line) : Qc :=
  if truthy_str (Cost.cost_type line) then
    if str_is (Cost.calculation_type line) "Per Instance" then
      (if truthy_str (Cost.related_revenue_type line)
       then of_int m * type_sales (revenue_assumptions self)
                         (Cost.related_revenue_type line)
       else 0)
      * flt (Cost.cost_per_unit line)
    else if str_is (Cost.calculation_type line) "Fixed Monthly" then
      flt (Cost.cost_per_unit line)
    else 0
  else 0.

(** The absolute month in which a capex line is purchased. *)
Definition capex_target (line : Capex.line) : Z :=
  ((py_or (Capex.purchase_year line) 1 - 1) * 12
   + py_or (Capex.purchase_month line) 1)%Z.

(** The cost of the named capex lines purchased in months [1..n]. *)
Definition capex_within (lines : list Capex.line) (n : Z) : Qc :=
  sum_amounts
    ((λ line,
        if truthy_str (Capex.asset_name line)
           && (1 <=? capex_target line)%Z && (capex_target line <=? n)%Z
        then flt (Capex.cost line) else 0) <$> lines).

(** Closes an equation between closed rationals. *)
Ltac qc_closed := apply Qc_is_canon; vm_compute; reflexivity.

(** * Properties *)

(** ** Arithmetic of the embedded floats *)

Lemma of_int_0 : of_int 0 = 0.
Proof. reflexivity. Qed.

Lemma of_int_1 : of_int 1 = 1.
Proof. reflexivity. Qed.

Lemma of_int_add (a b : Z) : of_int (a + b) = of_int a + of_int b.
Proof.
  apply Qc_is_canon. unfold of_int. simpl.
  rewrite !Qred_correct, inject_Z_plus. reflexivity.
Qed.

Lemma of_int_succ (k : nat) : of_int (Z.of_nat (S k)) = of_int (Z.of_nat k) + 1.
Proof. rewrite Nat2Z.inj_succ, <- Z.add_1_r, of_int_add. reflexivity. Qed.

Lemma of_int_nonzero (n : Z) : n ≠ 0%Z → of_int n ≠ 0.
Proof.
  intros Hn H. apply Hn.
  apply (f_equal this) in H. unfold of_int in H. simpl in H.
  assert (Hq : (inject_Z n == 0)%Q).
  { rewrite <- (Qred_correct (inject_Z n)). rewrite H. reflexivity. }
  unfold Qeq in Hq. simpl in Hq. lia.
Qed.

Lemma zero_div (x : Qc) : 0 / x = 0.
Proof. unfold Qcdiv. apply Qcmult_0_l. Qed.

Lemma unit_factor (n : nat) : (1 + 0 / of_int 100) ^ n = 1.
Proof. rewrite zero_div, Qcplus_0_r. apply Qcpower_1. Qed.

Lemma truthy_num_false (x : option Qc) : truthy_num x = false → flt x = 0.
Proof.
  destruct x as [q|]; simpl; [|done].
  intros H. apply negb_false_iff, bool_decide_eq_true in H. done.
Qed.

Lemma str_is_spec (s : option string) (lit : string) :
  str_is s lit = true ↔ s = Some lit.
Proof.
  destruct s as [s|]; simpl; [|done].
  rewrite String.eqb_eq. split; congruence.
Qed.

(** ** The error monad *)

Lemma for_each_app {A S} (body : S → A → result S) (l1 l2 : list A) (s : S) :
  for_each body (l1 ++ l2) s
  = do s' <- for_each body l1 s; for_each body l2 s'.
Proof.
  revert s. induction l1 as [|x l1 IH]; intros s; simpl; [done|].
  destruct (body s x); simpl; auto.
Qed.

Lemma for_each_skip {A S} (body : S → A → result S) (pre post : list A)
    (x : A) (s : S) :
  (∀ s', body s' x = Ok s') →
  for_each body (pre ++ x :: post) s = for_each body (pre ++ post) s.
Proof.
  intros Hskip. rewrite !for_each_app. destruct (for_each body pre s); simpl;
    [|done].
  by rewrite Hskip.
Qed.

Lemma fold_left_skip {A S} (body : S → A → S) (pre post : list A) (x : A)
    (s : S) :
  (∀ s', body s' x = s') →
  fold_left body (pre ++ x :: post) s = fold_left body (pre ++ post) s.
Proof. intros Hskip. rewrite !fold_left_app. simpl. by rewrite Hskip. Qed.

(** ** Cash timing (threshold rule) *)

(** C2: each of the four cash calculators returns the month's accrual
    amount when its delay is zero, and for a positive delay the amount when
    [month_num] exceeds the delay and zero otherwise; the amount of an
    earlier month is never looked up. *)
Theorem cash_threshold_rule (self : FinancialProjection) (month_num : Z)
    (amount : Qc) :
  (flt_int (cash_receipt_delay self) = 0%Z →
     calculate_cash_receipts self month_num amount = amount)
  ∧ ((0 < flt_int (cash_receipt_delay self))%Z →
     calculate_cash_receipts self month_num amount
     = if bool_decide (flt_int (cash_receipt_delay self) < month_num)%Z
       then amount else 0)
  ∧ (flt_int (cost_of_revenue_delay self) = 0%Z →
     calculate_cash_payments_cor self month_num amount = amount)
  ∧ ((0 < flt_int (cost_of_revenue_delay self))%Z →
     calculate_cash_payments_cor self month_num amount
     = if bool_decide (flt_int (cost_of_revenue_delay self) < month_num)%Z
       then amount else 0)
  ∧ (flt_int (opex_delay self) = 0%Z →
     calculate_cash_payments_opex self month_num amount = amount)
  ∧ ((0 < flt_int (opex_delay self))%Z →
     calculate_cash_payments_opex self month_num amount
     = if bool_decide (flt_int (opex_delay self) < month_num)%Z
       then amount else 0)
  ∧ (flt_int (capex_delay self) = 0%Z →
     calculate_cash_payments_capex self month_num amount = amount)
  ∧ ((0 < flt_int (capex_delay self))%Z →
     calculate_cash_payments_capex self month_num amount
     = if bool_decide (flt_int (capex_delay self) < month_num)%Z
       then amount else 0).
Proof.
  unfold calculate_cash_receipts, calculate_cash_payments_cor,
    calculate_cash_payments_opex, calculate_cash_payments_capex.
  repeat split; intros H;
    repeat match goal with
    | |- context [(?a =? ?b)%Z] => destruct (Z.eqb_spec a b)
    | |- context [(?a <? ?b)%Z] => destruct (Z.ltb_spec a b)
    | |- context [bool_decide ?P] => destruct (bool_decide_reflect P)
    end; try reflexivity; lia.
Qed.

Lemma cash_threshold_rule_witness :
  calculate_cash_receipts percentage_doc 2 (of_int 1000) = 0
  ∧ calculate_cash_receipts percentage_doc 3 (of_int 1000) = of_int 1000
  ∧ calculate_cash_payments_cor percentage_doc 2 (of_int 1000) = of_int 1000
  ∧ calculate_cash_payments_opex percentage_doc 1 (of_int 1000) = 0
  ∧ calculate_cash_payments_capex percentage_doc 1 (of_int 1000)
    = of_int 1000.
Proof.
  destruct (cash_threshold_rule percentage_doc 2 (of_int 1000))
    as (_ & Hreceipts2 & Hcor2 & _).
  destruct (cash_threshold_rule percentage_doc 3 (of_int 1000))
    as (_ & Hreceipts3 & _).
  destruct (cash_threshold_rule percentage_doc 1 (of_int 1000))
    as (_ & _ & _ & _ & _ & Hopex1 & Hcapex1 & _).
  refine (conj _ (conj _ (conj _ (conj _ _)))).
  - apply Hreceipts2. reflexivity.
  - apply Hreceipts3. reflexivity.
  - apply Hcor2. reflexivity.
  - apply Hopex1. reflexivity.
  - apply Hcapex1. reflexivity.
Defined.

(** ** Revenue lines *)

Lemma get_monthly_instances_eq (line : Revenue.line) (month_num year_num : Z)
    (carried : gmap (option string) Qc) :
  get_monthly_instances line month_num year_num carried
  = (default 0 (carried !! Revenue.revenue_type line)
     + flt (Revenue.monthly_new_sales line),
     <[Revenue.revenue_type line :=
         default 0 (carried !! Revenue.revenue_type line)
         + flt (Revenue.monthly_new_sales line)]> carried).
Proof.
  unfold get_monthly_instances.
  destruct (carried !! Revenue.revenue_type line) as [v|] eqn:Hk; simpl.
  - by rewrite Hk, lookup_insert_eq.
  - by rewrite !lookup_insert_eq, insert_insert_eq.
Qed.

Lemma revenue_line_body_named (line : Revenue.line)
    (month_num year_num month_in_year : Z) (total_revenue : Qc)
    (carried : gmap (option string) Qc) :
  truthy_str (Revenue.revenue_type line) = true →
  revenue_line_body month_num year_num month_in_year (total_revenue, carried)
    line
  = (total_revenue
     + monthly_revenue line month_in_year
         (default 0 (carried !! Revenue.revenue_type line)
          + flt (Revenue.monthly_new_sales line))
         (get_monthly_price line year_num),
     <[Revenue.revenue_type line :=
         default 0 (carried !! Revenue.revenue_type line)
         + flt (Revenue.monthly_new_sales line)]> carried).
Proof.
  intros Hnamed. unfold revenue_line_body.
  by rewrite Hnamed, get_monthly_instances_eq.
Qed.

Lemma month_in_year_period (month_num : Z) :
  month_in_year_of (month_num + 12) = month_in_year_of month_num.
Proof.
  unfold month_in_year_of. f_equal.
  replace (month_num + 12 - 1)%Z with (month_num - 1 + 1 * 12)%Z by lia.
  apply Z_mod_plus_full.
Qed.

Lemma monthly_revenue_one_time (line : Revenue.line) (month_in_year n : Z)
    (instances price : Qc) :
  Revenue.calculation_type line = Some "One-Time"%string →
  Revenue.implementation_months line = Some n →
  (0 < n)%Z →
  monthly_revenue line month_in_year instances price
  = if bool_decide (month_in_year ≤ n)%Z
    then (instances * price) / of_int n else 0.
Proof.
  intros Hkind Hmonths Hpos.
  unfold monthly_revenue. rewrite Hkind, Hmonths. simpl.
  destruct (Z.eqb_spec n 0) as [?|_]; [lia|].
  destruct (Z.ltb_spec 0 n) as [_|?]; [|lia]. simpl.
  destruct (Z.leb_spec month_in_year n);
    destruct (bool_decide_reflect (month_in_year ≤ n)%Z);
    done || lia.
Qed.

(** ** Staffing lines *)

Lemma staff_line_body_active (line : Staff.line) (month_num year_num : Z)
    (total_opex : Qc) :
  truthy_str (Staff.position_title line) = true →
  (py_or (Staff.start_month line) 1 ≤ month_num)%Z →
  ((1 < year_num)%Z →
     staff_line_body month_num year_num total_opex line
     = total_opex
       + (flt (Staff.monthly_salary line)
          * (1 + flt (Staff.annual_increase line) / of_int 100)
            ^ Z.to_nat (year_num - 1)
          + flt (Staff.monthly_benefits line)
          + flt (Staff.vehicle_allowance line)))
  ∧ ((year_num ≤ 1)%Z →
     staff_line_body month_num year_num total_opex line
     = total_opex
       + (flt (Staff.monthly_salary line)
          + flt (Staff.monthly_benefits line)
          + flt (Staff.vehicle_allowance line))).
Proof.
  intros Hnamed Hactive. unfold staff_line_body. rewrite Hnamed. simpl negb.
  cbv iota.
  destruct (Z.leb_spec (py_or (Staff.start_month line) 1) month_num)
    as [_|?]; [|lia].
  split; intros Hyear.
  - destruct (Z.ltb_spec 1 year_num) as [_|?]; [|lia].
    destruct (truthy_num (Staff.annual_increase line)) eqn:Hinc; simpl;
      [done|].
    rewrite (truthy_num_false _ Hinc), unit_factor.
    by rewrite Qcmult_1_r.
  - destruct (Z.ltb_spec 1 year_num) as [?|_]; [lia|].
    by rewrite andb_false_r.
Qed.

(** The compounded salary of the sample line: 1000 at 10% a year is 1100 in
    year 2 and 1210 in year 3. *)
Example engineer_salary_by_year :
  staff_line_body 16 2 0 engineer = of_int (1100 + 150 + 50)
  ∧ staff_line_body 28 3 0 engineer = of_int (1210 + 150 + 50).
Proof. split; qc_closed. Qed.

(** ** Validation *)

Lemma delay_check (x : option Z) :
  truthy_int x && ((default 0 x <? 0) || (6 <? default 0 x))%Z = true
  ↔ out_of_range x.
Proof.
  unfold out_of_range. destruct x as [n|]; simpl.
  - rewrite andb_true_iff, negb_true_iff, orb_true_iff, Z.eqb_neq,
      !Z.ltb_lt.
    split.
    + intros [_ H]. eauto.
    + intros (n' & [= <-] & H). split; [lia|done].
  - split; [done|]. by intros (? & ? & _).
Qed.

Lemma in_range_not_out (x : option Z) : in_range x → ¬ out_of_range x.
Proof.
  intros [->|(n & -> & Hn)] (n' & Heq & Hout); simplify_eq. lia.
Qed.

(** C8: validation raises exactly when opex_delay or capex_delay holds a
    value outside of [0,6]; delays that are unset or within [0,6] pass; and
    when validation raises, the save stops with that error, so the
    projection is not calculated and no document with rows comes back. *)
Theorem validate_delays_range (self : FinancialProjection) :
  ((∃ e, validate_delays self = Raise e)
   ↔ out_of_range (opex_delay self) ∨ out_of_range (capex_delay self))
  ∧ (in_range (opex_delay self) → in_range (capex_delay self) →
     validate_delays self = Ok ())
  ∧ (∀ e, validate_delays self = Raise e → save self = Raise e).
Proof.
  assert (Hiff : (∃ e, validate_delays self = Raise e)
     ↔ out_of_range (opex_delay self) ∨ out_of_range (capex_delay self)).
  { rewrite <- !delay_check. unfold validate_delays.
    destruct (truthy_int (opex_delay self) && _) eqn:Ho; simpl.
    - split; eauto.
    - destruct (truthy_int (capex_delay self) && _) eqn:Hc; simpl.
      + split; eauto.
      + split; [by intros [? ?]|by intros [?|?]]. }
  split; [exact Hiff|]. split.
  - intros Ho Hc. destruct (validate_delays self) as [[]|e] eqn:Hv; [done|].
    exfalso. destruct Hiff as [Hraise _].
    destruct Hraise as [H|H]; [by eauto| |].
    + by apply (in_range_not_out _ Ho).
    + by apply (in_range_not_out _ Hc).
  - intros e He. unfold save, validate. by rewrite He.
Qed.

Lemma validate_delays_range_witness :
  validate_delays percentage_doc = Ok ()
  ∧ ∃ e, validate_delays late_opex_doc = Raise e
         ∧ save late_opex_doc = Raise e.
Proof.
  split.
  - apply (validate_delays_range percentage_doc).
    + right. exists 1%Z. split; [reflexivity | lia].
    + right. exists 0%Z. split; [reflexivity | lia].
  - destruct (validate_delays_range late_opex_doc) as (Hraises & _ & Hsave).
    destruct (proj2 Hraises) as [e He].
    + left. exists 7%Z. split; [reflexivity | lia].
    + exists e. split; [exact He | exact (Hsave e He)].
Defined.

(** ** Lines without a name *)

Lemma get_related_revenue_rows (self self' : FinancialProjection)
    (month_num : Z) (revenue_type : option string) :
  monthly_projections self' = monthly_projections self →
  get_related_revenue self' month_num revenue_type
  = get_related_revenue self month_num revenue_type.
Proof. intros Hrows. unfold get_related_revenue. by rewrite Hrows. Qed.

Lemma cost_line_body_rows (self self' : FinancialProjection)
    (month_num year_num : Z) (carried : gmap (option string) Qc)
    (total_cost : Qc) (line : Cost.line) :
  monthly_projections self' = monthly_projections self →
  cost_line_body self' month_num year_num carried total_cost line
  = cost_line_body self month_num year_num carried total_cost line.
Proof.
  intros Hrows. unfold cost_line_body, monthly_cost.
  by rewrite (get_related_revenue_rows self self' _ _ Hrows).
Qed.

Lemma for_each_ext {A S} (f g : S → A → result S) (l : list A) (s : S) :
  (∀ s' x, f s' x = g s' x) → for_each f l s = for_each g l s.
Proof.
  intros Hfg. revert s. induction l as [|x l IH]; intros s; simpl; [done|].
  rewrite Hfg. destruct (g s x); simpl; auto.
Qed.

(** C10: a cost line without cost_type, a staffing line without
    position_title and a capex line without asset_name are passed over by
    their calculator: at every month the calculator returns what it returns
    for the same lines with that line taken out, whatever the other fields
    of the line hold. *)
Theorem unnamed_lines_skipped (self self' : FinancialProjection)
    (month_num year_num month_in_year : Z)
    (carried : gmap (option string) Qc) :
  monthly_projections self' = monthly_projections self →
  (∀ pre post line,
     truthy_str (Cost.cost_type line) = false →
     cost_assumptions self = pre ++ line :: post →
     cost_assumptions self' = pre ++ post →
     calculate_monthly_cost self month_num year_num month_in_year carried
     = calculate_monthly_cost self' month_num year_num month_in_year carried)
  ∧ (∀ pre post line,
     truthy_str (Staff.position_title line) = false →
     staff_assumptions self = pre ++ line :: post →
     staff_assumptions self' = pre ++ post →
     calculate_monthly_opex self month_num year_num month_in_year
     = calculate_monthly_opex self' month_num year_num month_in_year)
  ∧ (∀ pre post line,
     truthy_str (Capex.asset_name line) = false →
     capex_assumptions self = pre ++ line :: post →
     capex_assumptions self' = pre ++ post →
     calculate_monthly_capex self month_num year_num month_in_year
     = calculate_monthly_capex self' month_num year_num month_in_year).
Proof.
  intros Hrows. split; [|split]; intros pre post line Hline Hself Hself'.
  - unfold calculate_monthly_cost. rewrite Hself, Hself'.
    rewrite for_each_skip.
    + apply for_each_ext. intros. symmetry. by apply cost_line_body_rows.
    + intros t. unfold cost_line_body. by rewrite Hline.
  - unfold calculate_monthly_opex. rewrite Hself, Hself'.
    apply fold_left_skip. intros t. unfold staff_line_body. by rewrite Hline.
  - unfold calculate_monthly_capex. rewrite Hself, Hself'.
    apply fold_left_skip. intros t. unfold capex_line_body. by rewrite Hline.
Qed.

Lemma unnamed_lines_skipped_witness :
  calculate_monthly_cost draft_doc 3 1 3 ∅
  = calculate_monthly_cost clean_doc 3 1 3 ∅
  ∧ calculate_monthly_opex draft_doc 3 1 3
    = calculate_monthly_opex clean_doc 3 1 3
  ∧ calculate_monthly_capex draft_doc 3 1 3
    = calculate_monthly_capex clean_doc 3 1 3.
Proof.
  destruct (unnamed_lines_skipped draft_doc clean_doc 3 1 3 ∅ eq_refl)
    as (Hcost & Hstaff & Hcapex).
  refine (conj _ (conj _ _)).
  - exact (Hcost [] [hosting_share] unnamed_cost eq_refl eq_refl eq_refl).
  - exact (Hstaff [engineer] [] unnamed_staff eq_refl eq_refl eq_refl).
  - exact (Hcapex [] [van] unnamed_asset eq_refl eq_refl eq_refl).
Defined.

(** ** Year summary *)

Lemma three_years_zero : three_years year_zero.
Proof.
  intros y. unfold year_zero. rewrite !lookup_insert_is_Some.
  split.
  - intros [?|[_ [?|[_ [?|[_ H]]]]]]; auto.
    rewrite lookup_empty in H. by destruct H.
  - intros [Hy|[Hy|Hy]]; subst y; auto 10.
Qed.

Lemma three_years_alter (f : Qc → Qc) (year : Z) (d : gmap Z Qc) :
  three_years d → three_years (alter f year d).
Proof.
  intros Hd y. rewrite <- (Hd y).
  destruct (decide (year = y)) as [->|Hne].
  - rewrite lookup_alter_eq. by rewrite fmap_is_Some.
  - by rewrite lookup_alter_ne.
Qed.

Lemma year_total_cons (f : Row.t → Qc) (y : Z) (row : Row.t)
    (rows : list Row.t) :
  year_total f y (row :: rows)
  = (if decide (Row.year_number row = y) then f row else 0)
    + year_total f y rows.
Proof.
  unfold year_total. rewrite filter_cons.
  destruct (decide (Row.year_number row = y)); simpl; [done|].
  by rewrite Qcplus_0_l.
Qed.

Lemma year_total_app (f : Row.t → Qc) (y : Z) (rows1 rows2 : list Row.t) :
  year_total f y (rows1 ++ rows2)
  = year_total f y rows1 + year_total f y rows2.
Proof.
  induction rows1 as [|row rows1 IH]; simpl.
  - unfold year_total at 2. simpl. by rewrite Qcplus_0_l.
  - rewrite !year_total_cons, IH. ring.
Qed.

Lemma alter_add_lookup (d : gmap Z Qc) (year y : Z) (x : Qc) :
  is_Some (d !! year) →
  default 0 (alter (λ v, v + x) year d !! y)
  = default 0 (d !! y) + (if decide (year = y) then x else 0).
Proof.
  intros [v Hv]. destruct (decide (year = y)) as [<-|Hne].
  - by rewrite lookup_alter_eq, Hv.
  - rewrite lookup_alter_ne by done. by rewrite Qcplus_0_r.
Qed.

(** What the loop over the rows leaves in the three dictionaries. *)
Lemma summary_loop (rows : list Row.t) (R G N : gmap Z Qc) :
  three_years R → three_years G → three_years N →
  ∃ R' G' N',
    fold_left summary_row_body rows (R, G, N) = (R', G', N')
    ∧ ∀ y,
        default 0 (R' !! y)
        = default 0 (R !! y)
          + (if bool_decide (is_Some (R !! y))
             then year_total Row.revenue y rows else 0)
        ∧ default 0 (G' !! y)
          = default 0 (G !! y)
            + (if bool_decide (is_Some (R !! y))
               then year_total Row.gross_profit y rows else 0)
        ∧ default 0 (N' !! y)
          = default 0 (N !! y)
            + (if bool_decide (is_Some (R !! y))
               then year_total Row.net_income y rows else 0).
Proof.
  revert R G N. induction rows as [|row rows IH]; intros R G N HR HG HN.
  - exists R, G, N. split; [done|]. intros y.
    unfold year_total, total. simpl.
    destruct (bool_decide _); rewrite !Qcplus_0_r; done.
  - simpl.
    destruct (bool_decide_reflect (is_Some (R !! Row.year_number row)))
      as [Hin|Hout].
    + destruct (IH _ _ _
                  (three_years_alter (λ v, v + Row.revenue row)
                     (Row.year_number row) _ HR)
                  (three_years_alter (λ v, v + Row.gross_profit row)
                     (Row.year_number row) _ HG)
                  (three_years_alter (λ v, v + Row.net_income row)
                     (Row.year_number row) _ HN))
        as (R' & G' & N' & Hfold & Hsum).
      exists R', G', N'. split; [done|]. intros y.
      destruct (Hsum y) as (HR' & HG' & HN').
      rewrite HR', HG', HN'. clear HR' HG' HN' Hsum Hfold.
      assert (HinG : is_Some (G !! Row.year_number row))
        by (apply HG, HR, Hin).
      assert (HinN : is_Some (N !! Row.year_number row))
        by (apply HN, HR, Hin).
      rewrite !alter_add_lookup by done. rewrite !year_total_cons.
      assert (Hkeys : is_Some (alter (λ v, v + Row.revenue row)
                                 (Row.year_number row) R !! y)
                      ↔ is_Some (R !! y)).
      { rewrite (three_years_alter _ _ _ HR y). symmetry. apply HR. }
      destruct (bool_decide_reflect (is_Some (R !! y))) as [Hy|Hy].
      * rewrite bool_decide_eq_true_2 by (by apply Hkeys).
        destruct (decide (Row.year_number row = y)); (repeat split); ring.
      * rewrite bool_decide_eq_false_2 by (by rewrite Hkeys).
        destruct (decide (Row.year_number row = y)) as [<-|_]; [done|].
        (repeat split); ring.
    + destruct (IH R G N HR HG HN) as (R' & G' & N' & Hfold & Hsum).
      exists R', G', N'. split; [done|]. intros y.
      destruct (Hsum y) as (HR' & HG' & HN').
      rewrite HR', HG', HN'. rewrite !year_total_cons.
      destruct (decide (Row.year_number row = y)) as [<-|_].
      * rewrite bool_decide_eq_false_2 by done. done.
      * destruct (bool_decide _); (repeat split); ring.
Qed.

Lemma update_summary_fields_rows (self : FinancialProjection) :
  monthly_projections (update_summary_fields self)
  = monthly_projections self.
Proof.
  unfold update_summary_fields.
  destruct (truthy_list (monthly_projections self)); simpl; [|done].
  by destruct (fold_left _ _ _) as [[? ?] ?].
Qed.

Lemma update_summary_fields_matches (self : FinancialProjection) :
  monthly_projections self ≠ [] →
  summary_matches_rows (update_summary_fields self).
Proof.
  intros Hrows. unfold summary_matches_rows.
  rewrite update_summary_fields_rows. unfold update_summary_fields.
  destruct (monthly_projections self) as [|row rows] eqn:Hmp; [done|].
  simpl truthy_list. cbv iota. simpl negb. cbv iota.
  destruct (summary_loop (row :: rows) _ _ _
              three_years_zero three_years_zero three_years_zero)
    as (R' & G' & N' & -> & Hsum).
  simpl summary.
  pose proof (Hsum 1%Z) as (? & ? & ?).
  pose proof (Hsum 2%Z) as (? & ? & ?).
  pose proof (Hsum 3%Z) as (? & ? & ?).
  repeat split;
    match goal with
    | H : ?x = _ |- ?x = _ => rewrite H
    end; simpl; apply Qcplus_0_l.
Qed.


Lemma summary_eq (s1 s2 : Summary) :
  total_revenue_y1 s1 = total_revenue_y1 s2 →
  total_revenue_y2 s1 = total_revenue_y2 s2 →
  total_revenue_y3 s1 = total_revenue_y3 s2 →
  total_gross_profit_y1 s1 = total_gross_profit_y1 s2 →
  total_gross_profit_y2 s1 = total_gross_profit_y2 s2 →
  total_gross_profit_y3 s1 = total_gross_profit_y3 s2 →
  total_net_income_y1 s1 = total_net_income_y1 s2 →
  total_net_income_y2 s1 = total_net_income_y2 s2 →
  total_net_income_y3 s1 = total_net_income_y3 s2 →
  s1 = s2.
Proof. destruct s1, s2; simpl; intros; by subst. Qed.

Lemma year_total_skip (f : Row.t → Qc) (y : Z) (pre post : list Row.t)
    (row : Row.t) :
  Row.year_number row ≠ y →
  year_total f y (pre ++ row :: post) = year_total f y (pre ++ post).
Proof.
  intros Hy. rewrite !year_total_app, year_total_cons.
  rewrite decide_False by done. by rewrite Qcplus_0_l.
Qed.

(** C7 (amended): when the document has at least one monthly row, the nine
    summary fields are the sums of revenue, gross_profit and net_income
    over exactly the rows whose year_number is 1, 2 and 3, and a row of any
    other year changes none of them; when the document has no rows, the
    summary fields are left as they were. *)
Theorem summary_by_year (self : FinancialProjection) :
  (monthly_projections self ≠ [] →
     summary_matches_rows (update_summary_fields self))
  ∧ (∀ self' pre post row,
       ¬ (Row.year_number row = 1 ∨ Row.year_number row = 2
          ∨ Row.year_number row = 3)%Z →
       monthly_projections self = pre ++ row :: post →
       monthly_projections self' = pre ++ post →
       pre ++ post ≠ [] →
       summary (update_summary_fields self)
       = summary (update_summary_fields self'))
  ∧ (monthly_projections self = [] → update_summary_fields self = self).
Proof.
  split; [apply update_summary_fields_matches|]. split.
  - intros self' pre post row Hyear Hself Hself' Hne.
    assert (Hrows : monthly_projections self ≠ [])
      by (rewrite Hself; by destruct pre).
    assert (Hrows' : monthly_projections self' ≠ []) by by rewrite Hself'.
    pose proof (update_summary_fields_matches self Hrows) as H.
    pose proof (update_summary_fields_matches self' Hrows') as H'.
    unfold summary_matches_rows in H, H'.
    rewrite update_summary_fields_rows in H, H'.
    rewrite Hself in H. rewrite Hself' in H'.
    rewrite !year_total_skip in H by (intros Hy; apply Hyear; auto).
    cbv zeta in H, H'.
    destruct H as (E1 & E2 & E3 & E4 & E5 & E6 & E7 & E8 & E9).
    destruct H' as (H1 & H2 & H3 & H4 & H5 & H6 & H7 & H8 & H9).
    apply summary_eq; congruence.
  - intros Hrows. unfold update_summary_fields. by rewrite Hrows.
Qed.

Lemma summary_by_year_witness :
  summary_matches_rows (update_summary_fields four_year_doc)
  ∧ summary (update_summary_fields four_year_doc)
    = summary (update_summary_fields three_year_doc)
  ∧ update_summary_fields stale_doc = stale_doc.
Proof.
  destruct (summary_by_year four_year_doc) as (Hsums & Hother & _).
  destruct (summary_by_year stale_doc) as (_ & _ & Hnone).
  refine (conj _ (conj _ _)).
  - apply Hsums. discriminate.
  - apply (Hother three_year_doc
             [sample_row 1 1 (of_int 1000) (of_int 100) (of_int 300)]
             [sample_row 13 2 (of_int 2000) (of_int 200) (of_int 300)]
             (sample_row 37 4 (of_int 9000) (of_int 900) (of_int 300))).
    + simpl. lia.
    + reflexivity.
    + reflexivity.
    + discriminate.
  - apply Hnone. reflexivity.
Defined.

(** The summary that [stale_doc] holds is the one left by a projection of
    the same assumptions over one year. *)
Example stale_doc_history :
  ∃ self1,
    calculate_projections
      (sample (Some 1%Z) [subscriptions] [] [engineer] [] no_summary)
    = Ok self1
    ∧ summary self1 = summary stale_doc.
Proof.
  eexists. split; [vm_compute; reflexivity|].
  apply summary_eq; qc_closed.
Qed.

(** C7 as stated, without the proviso, fails: a document that was projected
    over one year and is projected again with a negative horizon gets no
    rows, and its summary still shows the totals of the earlier run. *)
Lemma summary_stale_without_rows :
  ∃ self',
    calculate_projections stale_doc = Ok self'
    ∧ monthly_projections self' = []
    ∧ ¬ summary_matches_rows self'.
Proof.
  exists stale_doc. split; [reflexivity|]. split; [reflexivity|].
  intros (H & _). apply (f_equal this) in H. vm_compute in H. discriminate.
Qed.

(** ** The month loop *)

Lemma month_body_eq (st : Loop.state) (month_num : Z) (revenue cost : Qc)
    (carried : gmap (option string) Qc) :
  calculate_monthly_revenue (Loop.self st) month_num (year_num_of month_num)
    (month_in_year_of month_num) (Loop.carried_instances st)
  = (revenue, carried) →
  calculate_monthly_cost (Loop.self st) month_num (year_num_of month_num)
    (month_in_year_of month_num) carried = Ok cost →
  month_body st month_num = Ok (month_next st month_num revenue carried cost).
Proof.
  unfold year_num_of, month_in_year_of, month_body. intros -> ->. reflexivity.
Qed.

Lemma month_body_raise (st : Loop.state) (month_num : Z) (e : exc) :
  calculate_monthly_cost (Loop.self st) month_num (year_num_of month_num)
    (month_in_year_of month_num)
    (calculate_monthly_revenue (Loop.self st) month_num
       (year_num_of month_num) (month_in_year_of month_num)
       (Loop.carried_instances st)).2 = Raise e →
  month_body st month_num = Raise e.
Proof.
  unfold year_num_of, month_in_year_of, month_body.
  destruct (calculate_monthly_revenue _ _ _ _ _) as [revenue carried].
  simpl. by intros ->.
Qed.

(** While the row of the month is not yet appended, the positional lookup
    finds nothing. *)
Lemma get_related_revenue_pending (self : FinancialProjection) (month_num : Z)
    (revenue_type : option string) :
  (len (monthly_projections self) < month_num)%Z →
  get_related_revenue self month_num revenue_type = Ok 0.
Proof.
  intros Hlen. unfold get_related_revenue.
  destruct (Z.leb_spec month_num (len (monthly_projections self))); [lia|].
  by rewrite andb_false_r.
Qed.

Lemma monthly_cost_pending (self : FinancialProjection) (month_num : Z)
    (line : Cost.line) (instances : Qc) :
  (len (monthly_projections self) < month_num)%Z →
  monthly_cost self month_num line instances
  = Ok (if str_is (Cost.calculation_type line) "Per Instance"
        then instances * flt (Cost.cost_per_unit line)
        else if str_is (Cost.calculation_type line) "Fixed Monthly"
        then flt (Cost.cost_per_unit line)
        else 0).
Proof.
  intros Hlen. unfold monthly_cost.
  rewrite get_related_revenue_pending by done. simpl.
  repeat destruct (str_is _ _); try done.
  by rewrite Qcmult_0_l.
Qed.

Lemma calculate_monthly_cost_pending (self : FinancialProjection)
    (month_num year_num month_in_year : Z)
    (carried : gmap (option string) Qc) :
  (len (monthly_projections self) < month_num)%Z →
  ∃ cost,
    calculate_monthly_cost self month_num year_num month_in_year carried
    = Ok cost.
Proof.
  intros Hlen. unfold calculate_monthly_cost.
  generalize (Q2Qc 0) as total_cost.
  induction (cost_assumptions self) as [|line lines IH]; intros total_cost;
    simpl; [by eexists|].
  unfold cost_line_body at 1.
  destruct (negb _); simpl; [apply IH|].
  rewrite monthly_cost_pending by done. simpl. apply IH.
Qed.

Lemma run_months_S (self : FinancialProjection) (k : nat) :
  run_months self (S k)
  = do st <- run_months self k; month_body st (Z.of_nat (S k)).
Proof.
  unfold run_months. rewrite seqZ_S, for_each_app.
  destruct (for_each month_body _ _) as [st|e]; simpl; [|done].
  replace (1 + Z.of_nat k)%Z with (Z.of_nat (S k)) by lia.
  by destruct (month_body st _).
Qed.

Lemma total_snoc (f : Row.t → Qc) (rows : list Row.t) (row : Row.t) :
  total f (rows ++ [row]) = total f rows + f row.
Proof.
  unfold total. induction rows as [|r rows IH]; simpl.
  - ring.
  - rewrite IH. ring.
Qed.

(** Induction over the iterations of the month loop: the loop never
    raises, after [k] iterations the document holds [k] rows and is
    otherwise unchanged, a state invariant [I] holds, and every row
    satisfies [Q] relative to the rows before it. *)
Lemma run_months_inv (self : FinancialProjection)
    (I : nat → list Row.t → Loop.state → Prop)
    (Q : list Row.t → Row.t → Prop) :
  I 0%nat [] (loop_init self) →
  (∀ k st rows revenue carried cost,
     run_months self k = Ok st →
     Loop.self st = set_monthly_projections rows self →
     length rows = k →
     I k rows st →
     calculate_monthly_revenue self (Z.of_nat (S k))
       (year_num_of (Z.of_nat (S k))) (month_in_year_of (Z.of_nat (S k)))
       (Loop.carried_instances st) = (revenue, carried) →
     calculate_monthly_cost (set_monthly_projections rows self)
       (Z.of_nat (S k)) (year_num_of (Z.of_nat (S k)))
       (month_in_year_of (Z.of_nat (S k))) carried = Ok cost →
     let row := month_row st (Z.of_nat (S k)) revenue cost in
     I (S k) (rows ++ [row])
       (month_next st (Z.of_nat (S k)) revenue carried cost)
     ∧ Q rows row) →
  ∀ k, ∃ st rows,
    run_months self k = Ok st
    ∧ Loop.self st = set_monthly_projections rows self
    ∧ length rows = k
    ∧ I k rows st
    ∧ ∀ i row, rows !! i = Some row → Q (take i rows) row.
Proof.
  intros Hinit Hstep k. induction k as [|k IH].
  - exists (loop_init self), []. repeat split; try done.
  - destruct IH as (st & rows & Hrun & Hself & Hlen & HI & HQ).
    rewrite run_months_S, Hrun. simpl.
    destruct (calculate_monthly_revenue self (Z.of_nat (S k))
                (year_num_of (Z.of_nat (S k)))
                (month_in_year_of (Z.of_nat (S k)))
                (Loop.carried_instances st))
      as [revenue carried] eqn:Hrev.
    destruct (calculate_monthly_cost_pending
                (set_monthly_projections rows self) (Z.of_nat (S k))
                (year_num_of (Z.of_nat (S k)))
                (month_in_year_of (Z.of_nat (S k))) carried)
      as [cost Hcost].
    { simpl. unfold len. lia. }
    destruct (Hstep k st rows revenue carried cost Hrun Hself Hlen HI Hrev
                Hcost) as [HI' HQ'].
    exists (month_next st (Z.of_nat (S k)) revenue carried cost),
      (rows ++ [month_row st (Z.of_nat (S k)) revenue cost]).
    split; [|split; [|split; [|split]]].
    + apply month_body_eq; rewrite Hself; done.
    + simpl. unfold append_row. by rewrite Hself.
    + rewrite length_app. simpl. lia.
    + done.
    + intros i row Hi. apply lookup_app_Some in Hi as [Hi|[Hge Hi]].
      * rewrite take_app_le by (apply lookup_lt_Some in Hi; lia). eauto.
      * apply list_lookup_singleton_Some in Hi as [Hi <-].
        assert (i = length rows) as -> by lia.
        by rewrite take_app_length.
Qed.

Lemma calculate_projections_eq (self : FinancialProjection) :
  calculate_projections self
  = do st <- run_months self (Z.to_nat (total_months self));
    Ok (update_summary_fields (Loop.self st)).
Proof.
  unfold calculate_projections, run_months.
  destruct (Z.le_gt_cases 0 (total_months self)).
  - by rewrite Z2Nat.id.
  - rewrite !seqZ_nil by lia. done.
Qed.

(** Only the cost calculator reads the rows of the document. *)
Lemma calculate_monthly_revenue_rows rows self m y miy carried :
  calculate_monthly_revenue (set_monthly_projections rows self) m y miy carried
  = calculate_monthly_revenue self m y miy carried.
Proof. reflexivity. Qed.

Lemma calculate_monthly_opex_rows rows self m y miy :
  calculate_monthly_opex (set_monthly_projections rows self) m y miy
  = calculate_monthly_opex self m y miy.
Proof. reflexivity. Qed.

Lemma calculate_monthly_capex_rows rows self m y miy :
  calculate_monthly_capex (set_monthly_projections rows self) m y miy
  = calculate_monthly_capex self m y miy.
Proof. reflexivity. Qed.

Lemma calculate_cash_receipts_rows rows self m x :
  calculate_cash_receipts (set_monthly_projections rows self) m x
  = calculate_cash_receipts self m x.
Proof. reflexivity. Qed.

Lemma calculate_cash_payments_cor_rows rows self m x :
  calculate_cash_payments_cor (set_monthly_projections rows self) m x
  = calculate_cash_payments_cor self m x.
Proof. reflexivity. Qed.

Lemma calculate_cash_payments_opex_rows rows self m x :
  calculate_cash_payments_opex (set_monthly_projections rows self) m x
  = calculate_cash_payments_opex self m x.
Proof. reflexivity. Qed.

Lemma calculate_cash_payments_capex_rows rows self m x :
  calculate_cash_payments_capex (set_monthly_projections rows self) m x
  = calculate_cash_payments_capex self m x.
Proof. reflexivity. Qed.

Create Rewrite HintDb doc_rows.
#[local] Hint Rewrite calculate_monthly_revenue_rows
  calculate_monthly_opex_rows calculate_monthly_capex_rows
  calculate_cash_receipts_rows calculate_cash_payments_cor_rows
  calculate_cash_payments_opex_rows calculate_cash_payments_capex_rows
  : doc_rows.

(** Reading the row of month [m] out of a list of rows indexed as the
    month loop builds it. *)
Lemma row_of_month (rows : list Row.t) (n m : Z) :
  length rows = Z.to_nat n →
  (1 ≤ m ≤ n)%Z →
  ∃ row,
    rows !! Z.to_nat (m - 1) = Some row
    ∧ take (Z.to_nat m) rows = take (Z.to_nat (m - 1)) rows ++ [row]
    ∧ length (take (Z.to_nat (m - 1)) rows) = Z.to_nat (m - 1)
    ∧ Z.of_nat (S (length (take (Z.to_nat (m - 1)) rows))) = m.
Proof.
  intros Hlen Hm.
  destruct (lookup_lt_is_Some_2 rows (Z.to_nat (m - 1))) as [row Hrow];
    [lia|].
  exists row. split; [done|]. split; [|split].
  - replace (Z.to_nat m) with (S (Z.to_nat (m - 1))) by lia.
    by apply take_S_r.
  - rewrite length_take. lia.
  - rewrite length_take. lia.
Qed.

(** ** Cash balance *)

(** C3: the projection returns a document in which, for every month m from
    1 to total_months, row m exists, carries month_number m, its
    cash_balance is cash_on_hand_start plus the sum of net_cash_flow over
    rows 1..m, and its net_cash_flow is the month's cash receipts minus the
    cash payments for cost of revenue, for operating expenses and for
    capital expenditure. *)
Theorem cash_balance_running_sum (self : FinancialProjection) :
  ∃ self',
    calculate_projections self = Ok self'
    ∧ ∀ m, (1 ≤ m ≤ total_months self)%Z →
        ∃ row,
          monthly_projections self' !! Z.to_nat (m - 1) = Some row
          ∧ Row.month_number row = m
          ∧ Row.cash_balance row
            = flt (cash_on_hand_start self)
              + total Row.net_cash_flow
                  (take (Z.to_nat m) (monthly_projections self'))
          ∧ Row.net_cash_flow row
            = calculate_cash_receipts self m (Row.revenue row)
              - calculate_cash_payments_cor self m (Row.cost_of_revenue row)
              - calculate_cash_payments_opex self m
                  (Row.operating_expenses row)
              - calculate_cash_payments_capex self m (Row.capex row)
          ∧ Row.net_cash_flow row
            = Row.cash_receipts row - Row.cash_payments row.
Proof.
  set (I := λ (_ : nat) (rows : list Row.t) (st : Loop.state),
    Loop.cash_balance st
    = flt (cash_on_hand_start self) + total Row.net_cash_flow rows).
  set (Q := λ (prefix : list Row.t) (row : Row.t),
    let m := Z.of_nat (S (length prefix)) in
    Row.month_number row = m
    ∧ Row.cash_balance row
      = flt (cash_on_hand_start self) + total Row.net_cash_flow prefix
        + Row.net_cash_flow row
    ∧ Row.net_cash_flow row
      = calculate_cash_receipts self m (Row.revenue row)
        - calculate_cash_payments_cor self m (Row.cost_of_revenue row)
        - calculate_cash_payments_opex self m (Row.operating_expenses row)
        - calculate_cash_payments_capex self m (Row.capex row)
    ∧ Row.net_cash_flow row = Row.cash_receipts row - Row.cash_payments row).
  assert (Hinit : I 0%nat [] (loop_init self)).
  { unfold I, total. simpl. by rewrite Qcplus_0_r. }
  assert (Hstep : ∀ k st rows revenue carried cost,
    run_months self k = Ok st →
    Loop.self st = set_monthly_projections rows self →
    length rows = k →
    I k rows st →
    calculate_monthly_revenue self (Z.of_nat (S k))
      (year_num_of (Z.of_nat (S k))) (month_in_year_of (Z.of_nat (S k)))
      (Loop.carried_instances st) = (revenue, carried) →
    calculate_monthly_cost (set_monthly_projections rows self)
      (Z.of_nat (S k)) (year_num_of (Z.of_nat (S k)))
      (month_in_year_of (Z.of_nat (S k))) carried = Ok cost →
    let row := month_row st (Z.of_nat (S k)) revenue cost in
    I (S k) (rows ++ [row])
      (month_next st (Z.of_nat (S k)) revenue carried cost)
    ∧ Q rows row).
  { intros k st rows revenue carried cost _ Hself Hlen HI _ _ row.
    unfold I, Q in *. rewrite total_snoc, Hlen.
    subst row. unfold month_next, month_row. simpl. rewrite !Hself.
    autorewrite with doc_rows. rewrite HI.
    split; [ring|]. split; [done|]. split; [ring|]. split; [done|ring]. }
  destruct (run_months_inv self I Q Hinit Hstep
              (Z.to_nat (total_months self)))
    as (st & rows & Hrun & Hself & Hlen & _ & HQ).
  exists (update_summary_fields (Loop.self st)). split.
  { rewrite calculate_projections_eq, Hrun. done. }
  intros m Hm. rewrite update_summary_fields_rows, Hself. simpl.
  destruct (row_of_month rows (total_months self) m Hlen Hm)
    as (row & Hrow & Htake & _ & Hidx).
  exists row. split; [done|].
  destruct (HQ _ _ Hrow) as (Hnum & Hbal & Hnet & Hpay).
  rewrite Hidx in Hnum, Hnet.
  rewrite Htake, total_snoc, Qcplus_assoc. done.
Qed.

Lemma cash_balance_running_sum_witness :
  ∃ self',
    calculate_projections percentage_doc = Ok self'
    ∧ ∃ row,
        monthly_projections self' !! Z.to_nat (4 - 1) = Some row
        ∧ Row.month_number row = 4%Z
        ∧ Row.cash_balance row
          = flt (cash_on_hand_start percentage_doc)
            + total Row.net_cash_flow
                (take (Z.to_nat 4) (monthly_projections self'))
        ∧ Row.net_cash_flow row
          = calculate_cash_receipts percentage_doc 4 (Row.revenue row)
            - calculate_cash_payments_cor percentage_doc 4
                (Row.cost_of_revenue row)
            - calculate_cash_payments_opex percentage_doc 4
                (Row.operating_expenses row)
            - calculate_cash_payments_capex percentage_doc 4 (Row.capex row)
        ∧ Row.net_cash_flow row
          = Row.cash_receipts row - Row.cash_payments row.
Proof.
  destruct (cash_balance_running_sum percentage_doc) as (self' & Hrun & Hrows).
  exists self'. split; [exact Hrun|].
  apply Hrows. vm_compute. split; discriminate.
Defined.

(** ** Revenue lines of one revenue type *)

Lemma revenue_line_body_acc (month_num year_num month_in_year : Z)
    (total_revenue : Qc) (carried : gmap (option string) Qc)
    (line : Revenue.line) :
  revenue_line_body month_num year_num month_in_year (total_revenue, carried)
    line
  = (total_revenue
     + (revenue_line_body month_num year_num month_in_year (0, carried)
          line).1,
     (revenue_line_body month_num year_num month_in_year (0, carried)
        line).2).
Proof.
  unfold revenue_line_body.
  destruct (negb (truthy_str (Revenue.revenue_type line))); simpl.
  - by rewrite Qcplus_0_r.
  - destruct (get_monthly_instances line month_num year_num carried)
      as [instances carried'].
    simpl. by rewrite Qcplus_0_l.
Qed.

Lemma revenue_pass_contributions (month_num year_num month_in_year : Z)
    (lines : list Revenue.line) (total_revenue : Qc)
    (carried : gmap (option string) Qc) :
  fold_left (revenue_line_body month_num year_num month_in_year) lines
    (total_revenue, carried)
  = (total_revenue
     + sum_amounts
         (revenue_contributions month_num year_num month_in_year lines
            carried).1,
     (revenue_contributions month_num year_num month_in_year lines
        carried).2).
Proof.
  revert total_revenue carried.
  induction lines as [|line lines IH]; intros total_revenue carried;
    cbn [fold_left revenue_contributions fst snd sum_amounts foldr].
  - by rewrite Qcplus_0_r.
  - rewrite revenue_line_body_acc, IH. f_equal.
    fold (sum_amounts
            (revenue_contributions month_num year_num month_in_year lines
               (revenue_line_body month_num year_num month_in_year
                  (0, carried) line).2).1).
    ring.
Qed.

Lemma revenue_contributions_app (month_num year_num month_in_year : Z)
    (lines1 lines2 : list Revenue.line) (carried : gmap (option string) Qc) :
  let pass1 :=
    revenue_contributions month_num year_num month_in_year lines1 carried in
  let pass2 :=
    revenue_contributions month_num year_num month_in_year lines2 pass1.2 in
  revenue_contributions month_num year_num month_in_year (lines1 ++ lines2)
    carried
  = (pass1.1 ++ pass2.1, pass2.2).
Proof.
  revert carried. induction lines1 as [|line lines1 IH]; intros carried;
    cbn [app revenue_contributions fst snd].
  - by destruct (revenue_contributions _ _ _ lines2 carried).
  - by rewrite IH.
Qed.

Lemma revenue_contributions_length (month_num year_num month_in_year : Z)
    (lines : list Revenue.line) (carried : gmap (option string) Qc) :
  length (revenue_contributions month_num year_num month_in_year lines
            carried).1
  = length lines.
Proof.
  revert carried. induction lines as [|line lines IH]; intros carried;
    cbn [revenue_contributions fst snd length]; [done|].
  by rewrite IH.
Qed.

Lemma revenue_contributions_other (key : option string)
    (month_num year_num month_in_year : Z) (lines : list Revenue.line)
    (carried : gmap (option string) Qc) :
  Forall (other_type key) lines →
  (revenue_contributions month_num year_num month_in_year lines carried).2
    !! key
  = carried !! key.
Proof.
  intros Hother. revert carried.
  induction Hother as [|line lines Hline _ IH]; intros carried;
    cbn [revenue_contributions fst snd]; [done|].
  rewrite IH.
  destruct (truthy_str (Revenue.revenue_type line)) eqn:Hnamed.
  - rewrite revenue_line_body_named by done. cbn [snd].
    destruct Hline as [Hline|Hline]; [congruence|].
    by rewrite lookup_insert_ne.
  - unfold revenue_line_body. by rewrite Hnamed.
Qed.

Lemma revenue_contributions_named (month_num year_num month_in_year : Z)
    (line : Revenue.line) (lines : list Revenue.line)
    (carried : gmap (option string) Qc) :
  truthy_str (Revenue.revenue_type line) = true →
  let instances :=
    default 0 (carried !! Revenue.revenue_type line)
    + flt (Revenue.monthly_new_sales line) in
  let rest :=
    revenue_contributions month_num year_num month_in_year lines
      (<[Revenue.revenue_type line := instances]> carried) in
  revenue_contributions month_num year_num month_in_year (line :: lines)
    carried
  = (monthly_revenue line month_in_year instances
       (get_monthly_price line year_num) :: rest.1,
     rest.2).
Proof.
  intros Hnamed. cbn [revenue_contributions].
  rewrite revenue_line_body_named by done. cbn [fst snd].
  by rewrite Qcplus_0_l.
Qed.

(** One pass over revenue lines among which exactly [line1] and, later,
    [line2] have the revenue type [key]. *)
Lemma shared_key_pass (month_num year_num month_in_year : Z)
    (pre mid post : list Revenue.line) (line1 line2 : Revenue.line)
    (carried : gmap (option string) Qc) :
  truthy_str (Revenue.revenue_type line1) = true →
  Revenue.revenue_type line2 = Revenue.revenue_type line1 →
  let key := Revenue.revenue_type line1 in
  Forall (other_type key) pre →
  Forall (other_type key) mid →
  Forall (other_type key) post →
  let sales1 := flt (Revenue.monthly_new_sales line1) in
  let sales2 := flt (Revenue.monthly_new_sales line2) in
  let before := default 0 (carried !! key) in
  let pass :=
    revenue_contributions month_num year_num month_in_year
      (pre ++ line1 :: mid ++ line2 :: post) carried in
  pass.1 !! length pre
  = Some (monthly_revenue line1 month_in_year (before + sales1)
            (get_monthly_price line1 year_num))
  ∧ pass.1 !! (length pre + S (length mid))%nat
    = Some (monthly_revenue line2 month_in_year (before + sales1 + sales2)
              (get_monthly_price line2 year_num))
  ∧ default 0 (pass.2 !! key) = before + sales1 + sales2.
Proof.
  intros Hnamed Hsame key Hpre Hmid Hpost sales1 sales2 before pass.
  subst pass. rewrite revenue_contributions_app. cbv zeta.
  set (pass_pre := revenue_contributions month_num year_num month_in_year
                     pre carried).
  assert (Hlen_pre : length pass_pre.1 = length pre)
    by apply revenue_contributions_length.
  assert (Hkey_pre : pass_pre.2 !! key = carried !! key)
    by by apply revenue_contributions_other.
  rewrite revenue_contributions_named by done.
  fold key sales1. rewrite Hkey_pre. fold before. cbv zeta.
  rewrite revenue_contributions_app. cbv zeta.
  set (pass_mid := revenue_contributions month_num year_num month_in_year
                     mid (<[key:=before + sales1]> pass_pre.2)).
  assert (Hlen_mid : length pass_mid.1 = length mid)
    by apply revenue_contributions_length.
  assert (Hkey_mid : pass_mid.2 !! key = Some (before + sales1)).
  { unfold pass_mid. rewrite revenue_contributions_other by done.
    apply lookup_insert_eq. }
  rewrite revenue_contributions_named by (by rewrite Hsame).
  rewrite Hsame. fold key sales2. rewrite Hkey_mid. cbv zeta. simpl.
  split; [|split].
  - rewrite lookup_app_r by lia.
    by replace (length pre - length pass_pre.1)%nat with 0%nat by lia.
  - rewrite lookup_app_r by lia.
    replace (length pre + S (length mid) - length pass_pre.1)%nat
      with (S (length mid)) by lia.
    simpl. rewrite lookup_app_r by lia.
    by replace (length mid - length pass_mid.1)%nat with 0%nat by lia.
  - rewrite revenue_contributions_other by done.
    by rewrite lookup_insert_eq.
Qed.

(** C9: when exactly two revenue lines have one non-empty revenue type,
    they work on one carried entry, in list order.  In every pass the
    earlier line is priced on the carried volume plus its own new sales and
    the later line on that volume plus its own new sales as well, and the
    entry then holds the sum.  Over the run the entry holds (m - 1) months
    of both lines' sales when month m starts, so in month m the earlier
    line is priced on that plus its own sales of month m, the later line on
    m months of both lines' sales, and the revenue of row m is the sum of
    the amounts of that pass. *)
Theorem shared_revenue_type (self : FinancialProjection)
    (pre mid post : list Revenue.line) (line1 line2 : Revenue.line) :
  revenue_assumptions self = pre ++ line1 :: mid ++ line2 :: post →
  truthy_str (Revenue.revenue_type line1) = true →
  Revenue.revenue_type line2 = Revenue.revenue_type line1 →
  let key := Revenue.revenue_type line1 in
  Forall (other_type key) pre →
  Forall (other_type key) mid →
  Forall (other_type key) post →
  let sales1 := flt (Revenue.monthly_new_sales line1) in
  let sales2 := flt (Revenue.monthly_new_sales line2) in
  (∀ month_num year_num month_in_year carried,
     let before := default 0 (carried !! key) in
     let pass :=
       revenue_contributions month_num year_num month_in_year
         (revenue_assumptions self) carried in
     calculate_monthly_revenue self month_num year_num month_in_year carried
     = (sum_amounts pass.1, pass.2)
     ∧ pass.1 !! length pre
       = Some (monthly_revenue line1 month_in_year (before + sales1)
                 (get_monthly_price line1 year_num))
     ∧ pass.1 !! (length pre + S (length mid))%nat
       = Some (monthly_revenue line2 month_in_year
                 (before + sales1 + sales2)
                 (get_monthly_price line2 year_num))
     ∧ default 0 (pass.2 !! key) = before + sales1 + sales2)
  ∧ ∃ self',
      calculate_projections self = Ok self'
      ∧ ∀ m, (1 ≤ m ≤ total_months self)%Z →
          ∃ row st,
            monthly_projections self' !! Z.to_nat (m - 1) = Some row
            ∧ run_months self (Z.to_nat (m - 1)) = Ok st
            ∧ default 0 (Loop.carried_instances st !! key)
              = of_int (m - 1) * (sales1 + sales2)
            ∧ let pass :=
                revenue_contributions m (year_num_of m) (month_in_year_of m)
                  (revenue_assumptions self) (Loop.carried_instances st) in
              Row.revenue row = sum_amounts pass.1
              ∧ pass.1 !! length pre
                = Some (monthly_revenue line1 (month_in_year_of m)
                          (of_int (m - 1) * (sales1 + sales2) + sales1)
                          (get_monthly_price line1 (year_num_of m)))
              ∧ pass.1 !! (length pre + S (length mid))%nat
                = Some (monthly_revenue line2 (month_in_year_of m)
                          (of_int m * (sales1 + sales2))
                          (get_monthly_price line2 (year_num_of m))).
Proof.
  intros Hlines Hnamed Hsame key Hpre Hmid Hpost sales1 sales2.
  assert (Hpass : ∀ month_num year_num month_in_year carried,
     let before := default 0 (carried !! key) in
     let pass :=
       revenue_contributions month_num year_num month_in_year
         (revenue_assumptions self) carried in
     calculate_monthly_revenue self month_num year_num month_in_year carried
     = (sum_amounts pass.1, pass.2)
     ∧ pass.1 !! length pre
       = Some (monthly_revenue line1 month_in_year (before + sales1)
                 (get_monthly_price line1 year_num))
     ∧ pass.1 !! (length pre + S (length mid))%nat
       = Some (monthly_revenue line2 month_in_year
                 (before + sales1 + sales2)
                 (get_monthly_price line2 year_num))
     ∧ default 0 (pass.2 !! key) = before + sales1 + sales2).
  { intros month_num year_num month_in_year carried before pass. split.
    - unfold calculate_monthly_revenue.
      rewrite revenue_pass_contributions. by rewrite Qcplus_0_l.
    - subst pass. rewrite Hlines. by apply shared_key_pass. }
  split; [exact Hpass|].
  set (I := λ (k : nat) (_ : list Row.t) (st : Loop.state),
    default 0 (Loop.carried_instances st !! key)
    = of_int (Z.of_nat k) * (sales1 + sales2)).
  set (Q := λ (prefix : list Row.t) (row : Row.t),
    let k := Z.of_nat (length prefix) in
    let m := Z.of_nat (S (length prefix)) in
    ∃ st,
      run_months self (length prefix) = Ok st
      ∧ default 0 (Loop.carried_instances st !! key)
        = of_int k * (sales1 + sales2)
      ∧ let pass :=
          revenue_contributions m (year_num_of m) (month_in_year_of m)
            (revenue_assumptions self) (Loop.carried_instances st) in
        Row.revenue row = sum_amounts pass.1
        ∧ pass.1 !! length pre
          = Some (monthly_revenue line1 (month_in_year_of m)
                    (of_int k * (sales1 + sales2) + sales1)
                    (get_monthly_price line1 (year_num_of m)))
        ∧ pass.1 !! (length pre + S (length mid))%nat
          = Some (monthly_revenue line2 (month_in_year_of m)
                    (of_int m * (sales1 + sales2))
                    (get_monthly_price line2 (year_num_of m)))).
  assert (Hinit : I 0%nat [] (loop_init self)).
  { unfold I. cbn [loop_init Loop.carried_instances Z.of_nat].
    rewrite lookup_empty. cbn [default].
    change (of_int (Z.of_nat 0)) with (Q2Qc 0). by rewrite Qcmult_0_l. }
  assert (Hstep : ∀ k st rows revenue carried cost,
    run_months self k = Ok st →
    Loop.self st = set_monthly_projections rows self →
    length rows = k →
    I k rows st →
    calculate_monthly_revenue self (Z.of_nat (S k))
      (year_num_of (Z.of_nat (S k))) (month_in_year_of (Z.of_nat (S k)))
      (Loop.carried_instances st) = (revenue, carried) →
    calculate_monthly_cost (set_monthly_projections rows self)
      (Z.of_nat (S k)) (year_num_of (Z.of_nat (S k)))
      (month_in_year_of (Z.of_nat (S k))) carried = Ok cost →
    let row := month_row st (Z.of_nat (S k)) revenue cost in
    I (S k) (rows ++ [row])
      (month_next st (Z.of_nat (S k)) revenue carried cost)
    ∧ Q rows row).
  { intros k st rows revenue carried cost Hrun Hself Hlen HI Hrev _ row.
    destruct (Hpass (Z.of_nat (S k)) (year_num_of (Z.of_nat (S k)))
                (month_in_year_of (Z.of_nat (S k)))
                (Loop.carried_instances st))
      as (Hsum & Hline1 & Hline2 & Hafter).
    rewrite Hsum in Hrev. injection Hrev as <- <-.
    unfold I in HI. rewrite HI in Hline1, Hline2, Hafter.
    unfold I, Q. simpl. rewrite Hlen. split.
    - rewrite Hafter, of_int_succ. ring.
    - exists st. split; [done|]. split; [done|].
      split; [reflexivity|]. split; [exact Hline1|].
      rewrite Hline2, of_int_succ. do 2 f_equal. ring. }
  destruct (run_months_inv self I Q Hinit Hstep
              (Z.to_nat (total_months self)))
    as (st & rows & Hrun & Hself & Hlen & _ & HQ).
  exists (update_summary_fields (Loop.self st)). split.
  { rewrite calculate_projections_eq, Hrun. done. }
  intros m Hm. rewrite update_summary_fields_rows, Hself. simpl.
  destruct (row_of_month rows (total_months self) m Hlen Hm)
    as (row & Hrow & _ & Hprefix & Hidx).
  destruct (HQ _ _ Hrow) as (st0 & Hrun0 & Hkey & Hsum & Hline1 & Hline2).
  cbv zeta in Hkey, Hsum, Hline1, Hline2.
  rewrite Hidx in Hsum, Hline1, Hline2.
  rewrite Hprefix in Hrun0, Hkey, Hline1.
  replace (Z.of_nat (Z.to_nat (m - 1))) with (m - 1)%Z in Hkey, Hline1
    by lia.
  exists row, st0. done.
Qed.

Lemma shared_revenue_type_witness :
  ∃ self',
    calculate_projections shared_type_doc = Ok self'
    ∧ ∃ row st,
        monthly_projections self' !! Z.to_nat (2 - 1) = Some row
        ∧ run_months shared_type_doc (Z.to_nat (2 - 1)) = Ok st
        ∧ default 0 (Loop.carried_instances st
                       !! Revenue.revenue_type subscriptions)
          = of_int (2 - 1) * (of_int 5 + of_int 2)
        ∧ let pass :=
            revenue_contributions 2 (year_num_of 2) (month_in_year_of 2)
              (revenue_assumptions shared_type_doc)
              (Loop.carried_instances st) in
          Row.revenue row = sum_amounts pass.1
          ∧ pass.1 !! 1%nat
            = Some (monthly_revenue subscriptions (month_in_year_of 2)
                      (of_int (2 - 1) * (of_int 5 + of_int 2) + of_int 5)
                      (get_monthly_price subscriptions (year_num_of 2)))
          ∧ pass.1 !! 3%nat
            = Some (monthly_revenue setup_fee (month_in_year_of 2)
                      (of_int 2 * (of_int 5 + of_int 2))
                      (get_monthly_price setup_fee (year_num_of 2))).
Proof.
  assert (Hpre : Forall (other_type (Revenue.revenue_type subscriptions))
                   [consulting]).
  { apply Forall_cons_2; [right; discriminate | apply Forall_nil_2]. }
  assert (Hmid : Forall (other_type (Revenue.revenue_type subscriptions))
                   [draft_revenue]).
  { apply Forall_cons_2; [left; reflexivity | apply Forall_nil_2]. }
  destruct (shared_revenue_type shared_type_doc [consulting] [draft_revenue]
              [] subscriptions setup_fee eq_refl eq_refl eq_refl
              Hpre Hmid (Forall_nil_2 _))
    as [_ (self' & Hrun & Hrows)].
  exists self'. split; [exact Hrun|].
  apply (Hrows 2%Z). vm_compute. split; discriminate.
Defined.

(** ** Running the projection again *)

(** The month loop does not read the summary fields. *)
Lemma month_body_with_summary (s : Summary) (st : Loop.state) (month_num : Z) :
  month_body (with_summary s st) month_num
  = do st' <- month_body st month_num; Ok (with_summary s st').
Proof.
  destruct (calculate_monthly_revenue (Loop.self st) month_num
              (year_num_of month_num) (month_in_year_of month_num)
              (Loop.carried_instances st)) as [revenue carried] eqn:Hrev.
  destruct (calculate_monthly_cost (Loop.self st) month_num
              (year_num_of month_num) (month_in_year_of month_num) carried)
    as [cost|e] eqn:Hcost.
  - rewrite (month_body_eq st month_num revenue cost carried Hrev Hcost).
    rewrite (month_body_eq (with_summary s st) month_num revenue cost carried
               Hrev Hcost).
    reflexivity.
  - rewrite (month_body_raise st month_num e) by (by rewrite Hrev).
    rewrite (month_body_raise (with_summary s st) month_num e); [done|].
    change (calculate_monthly_cost (Loop.self st) month_num
              (year_num_of month_num) (month_in_year_of month_num)
              (calculate_monthly_revenue (Loop.self st) month_num
                 (year_num_of month_num) (month_in_year_of month_num)
                 (Loop.carried_instances st)).2 = Raise e).
    by rewrite Hrev.
Qed.

Lemma run_months_with_summary (s : Summary) (rows0 : list Row.t)
    (self : FinancialProjection) (k : nat) :
  run_months (set_summary s (set_monthly_projections rows0 self)) k
  = do st <- run_months self k; Ok (with_summary s st).
Proof.
  induction k as [|k IH]; [reflexivity|].
  rewrite !run_months_S, IH.
  destruct (run_months self k) as [st|e]; simpl; [|done].
  apply month_body_with_summary.
Qed.

Lemma update_summary_fields_absorb (s : Summary) (self : FinancialProjection) :
  update_summary_fields (set_summary s self)
  = if truthy_list (monthly_projections self)
    then update_summary_fields self else set_summary s self.
Proof.
  unfold update_summary_fields. simpl.
  destruct (truthy_list (monthly_projections self)); simpl; [|done].
  by destruct (fold_left _ _ _) as [[? ?] ?].
Qed.

Lemma update_summary_fields_shape (self : FinancialProjection) :
  update_summary_fields self
  = set_summary (summary (update_summary_fields self)) self.
Proof.
  unfold update_summary_fields.
  destruct (truthy_list (monthly_projections self)); simpl.
  - by destruct (fold_left _ _ _) as [[? ?] ?].
  - by destruct self.
Qed.

(** C4: the projection always returns, and running it again on the
    document it returned gives that same document back, rows and summary
    fields alike.  Rows left on the document by an earlier run have no
    influence, and with a horizon of at least one month neither have the
    summary fields it left: every run clears the rows and starts from an
    empty dictionary of carried instances. *)
Theorem rerun_is_identical (self : FinancialProjection) :
  ∃ self1,
    calculate_projections self = Ok self1
    ∧ calculate_projections self1 = Ok self1
    ∧ (∀ rows0,
         calculate_projections (set_monthly_projections rows0 self) = Ok self1)
    ∧ ((0 < total_months self)%Z →
       ∀ rows0 s0,
         calculate_projections
           (set_summary s0 (set_monthly_projections rows0 self)) = Ok self1)
    ∧ Loop.carried_instances (loop_init self1) = ∅
    ∧ monthly_projections (Loop.self (loop_init self1)) = [].
Proof.
  destruct (run_months_inv self (λ _ _ _, True) (λ _ _, True) Logic.I
              (λ _ _ _ _ _ _ _ _ _ _ _ _, conj Logic.I Logic.I)
              (Z.to_nat (total_months self)))
    as (st & rows & Hrun & Hself & Hlen & _).
  assert (Hfirst : calculate_projections self
                   = Ok (update_summary_fields (Loop.self st))).
  { by rewrite calculate_projections_eq, Hrun. }
  exists (update_summary_fields (Loop.self st)).
  split; [done|]. split; [|split; [|split; [|done]]].
  - rewrite Hself.
    rewrite (update_summary_fields_shape (set_monthly_projections rows self))
      at 1.
    set (s1 := summary (update_summary_fields
                          (set_monthly_projections rows self))).
    rewrite calculate_projections_eq.
    change (total_months (set_summary s1 (set_monthly_projections rows self)))
      with (total_months self).
    rewrite run_months_with_summary, Hrun. simpl. rewrite Hself.
    rewrite update_summary_fields_absorb.
    destruct (truthy_list (monthly_projections
                             (set_monthly_projections rows self))) eqn:Hrows;
      [done|].
    subst s1. by rewrite <- update_summary_fields_shape.
  - intros rows0. exact Hfirst.
  - intros Hmonths rows0 s0. rewrite calculate_projections_eq.
    change (total_months (set_summary s0 (set_monthly_projections rows0 self)))
      with (total_months self).
    rewrite run_months_with_summary, Hrun. simpl.
    rewrite update_summary_fields_absorb, Hself. simpl.
    destruct rows as [|row rows]; [simpl in Hlen; lia|done].
Qed.

Lemma rerun_is_identical_witness :
  ∃ self1,
    calculate_projections percentage_doc = Ok self1
    ∧ calculate_projections self1 = Ok self1
    ∧ calculate_projections
        (set_summary (summary stale_doc)
           (set_monthly_projections (monthly_projections four_year_doc)
              percentage_doc)) = Ok self1.
Proof.
  destruct (rerun_is_identical percentage_doc)
    as (self1 & Hfirst & Hagain & _ & Hfresh & _).
  exists self1. split; [exact Hfirst|]. split; [exact Hagain|].
  apply Hfresh. reflexivity.
Defined.

(** ** Cost lines that are a percentage of revenue *)

(** During the run a line of kind Percentage of Revenue finds no row for
    the current month, so a document whose named cost lines are all of that
    kind has a cost of revenue of zero in every month. *)
Lemma percentage_only_cost (self : FinancialProjection) (month_num year_num
    month_in_year : Z) (carried : gmap (option string) Qc) :
  (len (monthly_projections self) < month_num)%Z →
  Forall (λ line, Cost.calculation_type line
                  = Some "Percentage of Revenue"%string)
    (cost_assumptions self) →
  calculate_monthly_cost self month_num year_num month_in_year carried = Ok 0.
Proof.
  intros Hlen. unfold calculate_monthly_cost.
  induction 1 as [|line lines Hkind _ IH]; [done|].
  simpl. unfold cost_line_body at 1.
  destruct (negb _); simpl; [done|].
  rewrite monthly_cost_pending by done. rewrite Hkind. simpl.
  by rewrite Qcplus_0_r.
Qed.

Lemma percentage_only_rows (self : FinancialProjection) :
  Forall (λ line, Cost.calculation_type line
                  = Some "Percentage of Revenue"%string)
    (cost_assumptions self) →
  ∃ self',
    calculate_projections self = Ok self'
    ∧ Forall (λ row, Row.cost_of_revenue row = 0) (monthly_projections self').
Proof.
  intros Hkind.
  destruct (run_months_inv self (λ _ _ _, True)
              (λ _ row, Row.cost_of_revenue row = 0) Logic.I) with
    (k := Z.to_nat (total_months self))
    as (st & rows & Hrun & Hself & Hlen & _ & HQ).
  - intros k st rows revenue carried cost _ _ Hlen _ _ Hcost row.
    split; [done|]. subst row. simpl.
    rewrite percentage_only_cost in Hcost; [by injection Hcost| |done].
    simpl. unfold len. lia.
  - exists (update_summary_fields (Loop.self st)). split.
    + by rewrite calculate_projections_eq, Hrun.
    + rewrite update_summary_fields_rows, Hself. simpl.
      apply Forall_lookup. intros i row Hrow. by apply (HQ i).
Qed.

(** C1 (evaluation at the failing input): one recurring revenue line and
    one cost line of 50 percent of revenue.  Month 1 has a revenue of 1000
    and month 12 of 12000, yet the cost of revenue of both rows is 0, not
    the 500 and 6000 that revenue x cost_percentage / 100 gives: when the
    cost of month m is computed, row m is not appended yet and the
    positional lookup returns 0. *)
Theorem percentage_cost_at_sample :
  ∃ self',
    calculate_projections percentage_doc = Ok self'
    ∧ ∃ row1 row12,
        monthly_projections self' !! 0%nat = Some row1
        ∧ monthly_projections self' !! 11%nat = Some row12
        ∧ Row.revenue row1 = of_int 1000
        ∧ Row.cost_of_revenue row1 = 0
        ∧ Row.revenue row1
          * (flt (Cost.cost_percentage hosting_share) / of_int 100)
          = of_int 500
        ∧ Row.revenue row12 = of_int 12000
        ∧ Row.cost_of_revenue row12 = 0
        ∧ Row.revenue row12
          * (flt (Cost.cost_percentage hosting_share) / of_int 100)
          = of_int 6000.
Proof.
  eexists. split; [vm_compute; reflexivity|].
  eexists. eexists. split; [reflexivity|]. split; [reflexivity|].
  repeat (split; [qc_closed|]). qc_closed.
Qed.

(** * Further properties of the month loop *)

Lemma projection_inv (self : FinancialProjection)
    (I : nat → list Row.t → Loop.state → Prop)
    (Q : list Row.t → Row.t → Prop) :
  I 0%nat [] (loop_init self) →
  loop_step self I Q →
  ∃ st rows,
    calculate_projections self
    = Ok (update_summary_fields (set_monthly_projections rows self))
    ∧ run_months self (Z.to_nat (total_months self)) = Ok st
    ∧ Loop.self st = set_monthly_projections rows self
    ∧ length rows = Z.to_nat (total_months self)
    ∧ I (length rows) rows st
    ∧ ∀ i row, rows !! i = Some row → Q (take i rows) row.
Proof.
  intros Hinit Hstep.
  destruct (run_months_inv self I Q Hinit Hstep
              (Z.to_nat (total_months self)))
    as (st & rows & Hrun & Hself & Hlen & HI & HQ).
  exists st, rows. rewrite calculate_projections_eq, Hrun. simpl.
  rewrite Hself, Hlen. done.
Qed.

Lemma projected_rows (rows : list Row.t) (self : FinancialProjection) :
  monthly_projections
    (update_summary_fields (set_monthly_projections rows self))
  = rows.
Proof. by rewrite update_summary_fields_rows. Qed.

Lemma year_num_of_bounds (m n : Z) :
  (1 ≤ m ≤ n * 12)%Z → (1 ≤ year_num_of m ≤ n)%Z.
Proof.
  intros Hm. unfold year_num_of.
  assert (0 ≤ (m - 1) / 12)%Z by (apply Z.div_pos; lia).
  assert ((m - 1) / 12 < n)%Z by (apply Z.div_lt_upper_bound; lia).
  lia.
Qed.

(** ** Shape of the rows *)

(** X1: the projection produces one row per month of the horizon,
    (projection_years or 3) x 12 of them and none for a negative horizon;
    the rows are numbered 1, 2, ... in order, row m is dated m - 1 months
    after the start date and belongs to year ((m - 1) div 12) + 1, which
    lies between 1 and the number of projected years. *)
Theorem rows_shape (self : FinancialProjection) :
  ∃ self',
    calculate_projections self = Ok self'
    ∧ Row.month_number <$> monthly_projections self'
      = seqZ 1 (total_months self)
    ∧ Row.year_number <$> monthly_projections self'
      = year_num_of <$> seqZ 1 (total_months self)
    ∧ Row.month_date <$> monthly_projections self'
      = (λ m, add_months (start_date self) (m - 1))
          <$> seqZ 1 (total_months self)
    ∧ Forall (λ row, (1 ≤ Row.year_number row
                      ≤ py_or (projection_years self) 3)%Z)
        (monthly_projections self').
Proof.
  set (I := λ (k : nat) (rows : list Row.t) (_ : Loop.state),
    Row.month_number <$> rows = seqZ 1 (Z.of_nat k)).
  destruct (projection_inv self I (λ _ _, True))
    as (st & rows & Hrun & _ & _ & Hlen & HI & _).
  { done. }
  { intros k st rows revenue carried cost _ _ _ HI _ _ row. split; [|done].
    unfold I in *. rewrite fmap_app, HI, seqZ_S. simpl.
    do 3 f_equal. lia. }
  eexists. split; [exact Hrun|]. rewrite projected_rows.
  unfold I in HI. rewrite Hlen in HI.
  assert (Hnum : Row.month_number <$> rows = seqZ 1 (total_months self)).
  { rewrite HI. destruct (Z.le_gt_cases 0 (total_months self)).
    - by rewrite Z2Nat.id.
    - by rewrite !seqZ_nil by lia. }
  clear HI.
  assert (Hrow : ∀ i row, rows !! i = Some row →
            Row.month_number row = (1 + Z.of_nat i)%Z
            ∧ (Z.of_nat i < total_months self)%Z).
  { intros i row Hi. apply lookup_seqZ. rewrite <- Hnum.
    by rewrite list_lookup_fmap, Hi. }
  assert (Hfields : ∀ i row, rows !! i = Some row →
            Row.year_number row = year_num_of (Row.month_number row)
            ∧ Row.month_date row
              = add_months (start_date self) (Row.month_number row - 1)).
  { destruct (projection_inv self (λ _ _ _, True)
                (λ _ row,
                   Row.year_number row = year_num_of (Row.month_number row)
                   ∧ Row.month_date row
                     = add_months (start_date self)
                         (Row.month_number row - 1)))
      as (st' & rows' & Hrun' & _ & _ & _ & _ & HQ).
    { done. }
    { intros k st1 rows1 revenue carried cost _ Hself _ _ _ _ row.
      split; [done|]. subst row. simpl. by rewrite Hself. }
    rewrite Hrun in Hrun'. injection Hrun' as Hsame.
    apply (f_equal monthly_projections) in Hsame.
    rewrite !projected_rows in Hsame. subst rows'. exact HQ. }
  split; [done|]. split; [|split].
  - rewrite <- Hnum, <- list_fmap_compose. apply list_eq. intros i.
    rewrite !list_lookup_fmap. destruct (rows !! i) as [row|] eqn:Hi; [|done].
    simpl. f_equal. by apply (Hfields i).
  - rewrite <- Hnum, <- list_fmap_compose. apply list_eq. intros i.
    rewrite !list_lookup_fmap. destruct (rows !! i) as [row|] eqn:Hi; [|done].
    simpl. f_equal. by apply (Hfields i).
  - apply Forall_lookup. intros i row Hi.
    destruct (Hrow i row Hi) as [Hm Hlt].
    destruct (Hfields i row Hi) as [-> _]. rewrite Hm.
    apply year_num_of_bounds. unfold total_months in Hlt. lia.
Qed.

(** ** Running totals and row identities *)

(** X2: in the projected rows the three cumulative columns are running
    sums: for every month m of the horizon, row m holds the sums of revenue,
    cost_of_revenue and gross_profit over rows 1..m, and its cumulative
    gross profit is its cumulative revenue minus its cumulative cost. *)
Theorem cumulative_columns (self : FinancialProjection) :
  ∃ self',
    calculate_projections self = Ok self'
    ∧ ∀ m, (1 ≤ m ≤ total_months self)%Z →
        ∃ row,
          monthly_projections self' !! Z.to_nat (m - 1) = Some row
          ∧ let upto := take (Z.to_nat m) (monthly_projections self') in
            Row.cumulative_revenue row = total Row.revenue upto
            ∧ Row.cumulative_cost row = total Row.cost_of_revenue upto
            ∧ Row.cumulative_gross_profit row = total Row.gross_profit upto
            ∧ Row.cumulative_gross_profit row
              = Row.cumulative_revenue row - Row.cumulative_cost row.
Proof.
  set (I := λ (_ : nat) (rows : list Row.t) (st : Loop.state),
    Loop.cumulative_revenue st = total Row.revenue rows
    ∧ Loop.cumulative_cost st = total Row.cost_of_revenue rows
    ∧ Loop.cumulative_gross_profit st = total Row.gross_profit rows
    ∧ Loop.cumulative_gross_profit st
      = Loop.cumulative_revenue st - Loop.cumulative_cost st).
  set (Q := λ (prefix : list Row.t) (row : Row.t),
    Row.cumulative_revenue row = total Row.revenue prefix + Row.revenue row
    ∧ Row.cumulative_cost row
      = total Row.cost_of_revenue prefix + Row.cost_of_revenue row
    ∧ Row.cumulative_gross_profit row
      = total Row.gross_profit prefix + Row.gross_profit row
    ∧ Row.cumulative_gross_profit row
      = Row.cumulative_revenue row - Row.cumulative_cost row).
  destruct (projection_inv self I Q)
    as (st & rows & Hrun & _ & _ & Hlen & _ & HQ).
  { unfold I, total. simpl. repeat split; ring. }
  { intros k st rows revenue carried cost _ _ _ (Hr & Hc & Hg & Hd) _ _ row.
    unfold I, Q. rewrite !total_snoc. subst row. simpl.
    rewrite Hd, <- Hr, <- Hc. rewrite Hd in Hg. rewrite <- Hg.
    repeat split; ring. }
  eexists. split; [exact Hrun|]. rewrite projected_rows.
  intros m Hm.
  destruct (row_of_month rows (total_months self) m Hlen Hm)
    as (row & Hrow & Htake & _ & _).
  exists row. split; [done|]. cbv zeta. rewrite Htake, !total_snoc.
  exact (HQ _ row Hrow).
Qed.

Lemma cumulative_columns_witness :
  ∃ self',
    calculate_projections percentage_doc = Ok self'
    ∧ ∃ row,
        monthly_projections self' !! Z.to_nat (7 - 1) = Some row
        ∧ let upto := take (Z.to_nat 7) (monthly_projections self') in
          Row.cumulative_revenue row = total Row.revenue upto
          ∧ Row.cumulative_cost row = total Row.cost_of_revenue upto
          ∧ Row.cumulative_gross_profit row = total Row.gross_profit upto
          ∧ Row.cumulative_gross_profit row
            = Row.cumulative_revenue row - Row.cumulative_cost row.
Proof.
  destruct (cumulative_columns percentage_doc) as (self' & Hrun & Hrows).
  exists self'. split; [exact Hrun|].
  apply (Hrows 7%Z). vm_compute. split; discriminate.
Defined.

(** X3: every projected row is consistent with the calculators of its
    month: gross profit is revenue minus cost of revenue, net income is
    gross profit minus operating expenses and does not contain capital
    expenditure, operating expenses and capex are what the two calculators
    return for the row's month, and cash receipts and cash payments are the
    delayed amounts of the row's own accruals. *)
Theorem row_identities (self : FinancialProjection) :
  ∃ self',
    calculate_projections self = Ok self'
    ∧ Forall (λ row,
        let m := Row.month_number row in
        Row.gross_profit row = Row.revenue row - Row.cost_of_revenue row
        ∧ Row.net_income row
          = Row.revenue row - Row.cost_of_revenue row
            - Row.operating_expenses row
        ∧ Row.operating_expenses row
          = calculate_monthly_opex self m (year_num_of m) (month_in_year_of m)
        ∧ Row.capex row
          = calculate_monthly_capex self m (year_num_of m)
              (month_in_year_of m)
        ∧ Row.cash_receipts row
          = calculate_cash_receipts self m (Row.revenue row)
        ∧ Row.cash_payments row
          = calculate_cash_payments_cor self m (Row.cost_of_revenue row)
            + calculate_cash_payments_opex self m (Row.operating_expenses row)
            + calculate_cash_payments_capex self m (Row.capex row))
      (monthly_projections self').
Proof.
  destruct (projection_inv self (λ _ _ _, True)
    (λ _ row,
      let m := Row.month_number row in
      Row.gross_profit row = Row.revenue row - Row.cost_of_revenue row
      ∧ Row.net_income row
        = Row.revenue row - Row.cost_of_revenue row
          - Row.operating_expenses row
      ∧ Row.operating_expenses row
        = calculate_monthly_opex self m (year_num_of m) (month_in_year_of m)
      ∧ Row.capex row
        = calculate_monthly_capex self m (year_num_of m) (month_in_year_of m)
      ∧ Row.cash_receipts row
        = calculate_cash_receipts self m (Row.revenue row)
      ∧ Row.cash_payments row
        = calculate_cash_payments_cor self m (Row.cost_of_revenue row)
          + calculate_cash_payments_opex self m (Row.operating_expenses row)
          + calculate_cash_payments_capex self m (Row.capex row)))
    as (st & rows & Hrun & _ & _ & _ & _ & HQ).
  { done. }
  { intros k st rows revenue carried cost _ Hself _ _ _ _ row.
    split; [done|]. subst row. unfold month_row. simpl. rewrite !Hself.
    autorewrite with doc_rows. done. }
  eexists. split; [exact Hrun|]. rewrite projected_rows.
  apply Forall_lookup. intros i row Hi. exact (HQ i row Hi).
Qed.

(** X4: the projection changes nothing but the monthly rows and the nine
    summary fields: the start date, the horizon, the opening cash, the four
    delays and the four tables of assumption lines of the returned document
    are those of the document it was given. *)
Theorem inputs_preserved (self : FinancialProjection) :
  ∃ rows s,
    calculate_projections self
    = Ok (set_summary s (set_monthly_projections rows self)).
Proof.
  destruct (projection_inv self (λ _ _ _, True) (λ _ _, True))
    as (st & rows & Hrun & _).
  { done. }
  { by intros k st rows revenue carried cost _ _ _ _ _ _ row. }
  exists rows. eexists. rewrite Hrun.
  by rewrite (update_summary_fields_shape (set_monthly_projections rows self))
    at 1.
Qed.

(** ** Cash over the whole run *)

Lemma total_ext (f g : Row.t → Qc) (rows : list Row.t) :
  (∀ i row, rows !! i = Some row → f row = g row) →
  total f rows = total g rows.
Proof.
  induction rows as [|row rows IH]; intros Hfg; [done|].
  unfold total in *. simpl. rewrite (Hfg 0%nat row eq_refl). f_equal.
  apply IH. intros i row' Hi. exact (Hfg (S i) row' Hi).
Qed.

Lemma total_plus (f g : Row.t → Qc) (rows : list Row.t) :
  total (λ row, f row + g row) rows = total f rows + total g rows.
Proof.
  unfold total. induction rows as [|row rows IH]; simpl.
  - ring.
  - rewrite IH. ring.
Qed.

Lemma total_app_rows (f : Row.t → Qc) (rows1 rows2 : list Row.t) :
  total f (rows1 ++ rows2) = total f rows1 + total f rows2.
Proof.
  unfold total. induction rows1 as [|row rows1 IH]; simpl.
  - ring.
  - rewrite IH. ring.
Qed.

(** A column that repeats another column from month [D + 1] on and is zero
    before sums to the other column without its first [D] rows. *)
Lemma total_after (f g : Row.t → Qc) (D : Z) (rows : list Row.t) :
  (∀ i row, rows !! i = Some row →
     f row = if (D <? Z.of_nat (S i))%Z then g row else 0) →
  total f rows = total g (drop (Z.to_nat D) rows).
Proof.
  induction rows as [|row rows IH] using rev_ind; intros Hf.
  - by rewrite drop_nil.
  - rewrite total_snoc, drop_app, total_app_rows.
    rewrite IH by (intros i r Hi; apply Hf; by apply lookup_app_l_Some).
    f_equal.
    rewrite (Hf (length rows) row)
      by (rewrite lookup_app_r by lia; by rewrite Nat.sub_diag).
    destruct (Z.ltb_spec D (Z.of_nat (S (length rows)))).
    + replace (Z.to_nat D - length rows)%nat with 0%nat by lia.
      unfold total. simpl. ring.
    + rewrite drop_ge by (simpl; lia). done.
Qed.

Lemma cash_after_delay (self : FinancialProjection) (m : Z) (x : Qc) :
  (1 ≤ m)%Z →
  calculate_cash_receipts self m x
  = (if (flt_int (cash_receipt_delay self) <? m)%Z then x else 0)
  ∧ calculate_cash_payments_cor self m x
    = (if (flt_int (cost_of_revenue_delay self) <? m)%Z then x else 0)
  ∧ calculate_cash_payments_opex self m x
    = (if (flt_int (opex_delay self) <? m)%Z then x else 0)
  ∧ calculate_cash_payments_capex self m x
    = (if (flt_int (capex_delay self) <? m)%Z then x else 0).
Proof.
  intros Hm.
  unfold calculate_cash_receipts, calculate_cash_payments_cor,
    calculate_cash_payments_opex, calculate_cash_payments_capex.
  repeat split;
    repeat match goal with
    | |- context [(?a =? ?b)%Z] => destruct (Z.eqb_spec a b)
    | |- context [(?a <? ?b)%Z] => destruct (Z.ltb_spec a b)
    end; try reflexivity; lia.
Qed.

(** The cash columns of the projected rows, by position. *)
Lemma cash_columns (self : FinancialProjection) :
  ∃ rows,
    calculate_projections self
    = Ok (update_summary_fields (set_monthly_projections rows self))
    ∧ length rows = Z.to_nat (total_months self)
    ∧ ∀ i row, rows !! i = Some row →
        let late (delay : option Z) (x : Qc) :=
          if (flt_int delay <? Z.of_nat (S i))%Z then x else 0 in
        Row.cash_receipts row
        = late (cash_receipt_delay self) (Row.revenue row)
        ∧ Row.cash_payments row
          = late (cost_of_revenue_delay self) (Row.cost_of_revenue row)
            + late (opex_delay self) (Row.operating_expenses row)
            + late (capex_delay self) (Row.capex row)
        ∧ Row.net_cash_flow row
          = Row.cash_receipts row - Row.cash_payments row
        ∧ Row.net_income row
          = Row.revenue row - Row.cost_of_revenue row
            - Row.operating_expenses row.
Proof.
  destruct (projection_inv self (λ _ _ _, True)
    (λ prefix row,
      let m := Z.of_nat (S (length prefix)) in
      Row.cash_receipts row = calculate_cash_receipts self m (Row.revenue row)
      ∧ Row.cash_payments row
        = calculate_cash_payments_cor self m (Row.cost_of_revenue row)
          + calculate_cash_payments_opex self m (Row.operating_expenses row)
          + calculate_cash_payments_capex self m (Row.capex row)
      ∧ Row.net_cash_flow row = Row.cash_receipts row - Row.cash_payments row
      ∧ Row.net_income row
        = Row.revenue row - Row.cost_of_revenue row
          - Row.operating_expenses row))
    as (st & rows & Hrun & _ & _ & Hlen & _ & HQ).
  { done. }
  { intros k st rows revenue carried cost _ Hself Hlen _ _ _ row.
    split; [done|]. subst row. unfold month_row. simpl. rewrite !Hself, Hlen.
    autorewrite with doc_rows. repeat split; ring. }
  exists rows. split; [exact Hrun|]. split; [exact Hlen|].
  intros i row Hi late. subst late.
  destruct (HQ i row Hi) as (Hr & Hp & Hn & Hi').
  cbv zeta in Hr, Hp.
  assert (Hlen' : length (take i rows) = i).
  { rewrite length_take. apply lookup_lt_Some in Hi. lia. }
  rewrite Hlen' in Hr, Hp. rewrite Hr, Hp at 1.
  destruct (cash_after_delay self (Z.of_nat (S i)) (Row.revenue row))
    as (-> & _); [lia|].
  destruct (cash_after_delay self (Z.of_nat (S i)) (Row.cost_of_revenue row))
    as (_ & -> & _); [lia|].
  destruct (cash_after_delay self (Z.of_nat (S i))
              (Row.operating_expenses row)) as (_ & _ & -> & _); [lia|].
  destruct (cash_after_delay self (Z.of_nat (S i)) (Row.capex row))
    as (_ & _ & _ & ->); [lia|].
  done.
Qed.

(** A sum of three columns that each start after their own delay. *)
Lemma total_after3 (f g1 g2 g3 : Row.t → Qc) (D1 D2 D3 : Z)
    (rows : list Row.t) :
  (∀ i row, rows !! i = Some row →
     f row = (if (D1 <? Z.of_nat (S i))%Z then g1 row else 0)
             + (if (D2 <? Z.of_nat (S i))%Z then g2 row else 0)
             + (if (D3 <? Z.of_nat (S i))%Z then g3 row else 0)) →
  total f rows
  = total g1 (drop (Z.to_nat D1) rows) + total g2 (drop (Z.to_nat D2) rows)
    + total g3 (drop (Z.to_nat D3) rows).
Proof.
  induction rows as [|row rows IH] using rev_ind; intros Hf.
  - rewrite !drop_nil. unfold total. simpl. ring.
  - rewrite total_snoc, !drop_app, !total_app_rows.
    rewrite IH by (intros i r Hi; apply Hf; by apply lookup_app_l_Some).
    rewrite (Hf (length rows) row)
      by (rewrite lookup_app_r by lia; by rewrite Nat.sub_diag).
    assert (Hone : ∀ (D : Z) (g : Row.t → Qc),
      (if (D <? Z.of_nat (S (length rows)))%Z then g row else 0)
      = total g (drop (Z.to_nat D - length rows) [row])).
    { intros D g. destruct (Z.ltb_spec D (Z.of_nat (S (length rows)))).
      - replace (Z.to_nat D - length rows)%nat with 0%nat by lia.
        unfold total. simpl. ring.
      - rewrite drop_ge by (simpl; lia). done. }
    rewrite !Hone. ring.
Qed.

(** X5: cash that is held back by a delay is never caught up.  Over the
    whole run the cash receipts add up to the revenue of the months after
    the first cash_receipt_delay months, and the cash payments to the cost
    of revenue, operating expenses and capex of the months after their own
    delays; what accrues in the first D months of a category with delay D
    appears in no row.  A negative delay behaves like no delay. *)
Theorem delayed_cash_totals (self : FinancialProjection) :
  ∃ self',
    calculate_projections self = Ok self'
    ∧ let rows := monthly_projections self' in
      let after (delay : option Z) := drop (Z.to_nat (flt_int delay)) rows in
      total Row.cash_receipts rows
      = total Row.revenue (after (cash_receipt_delay self))
      ∧ total Row.cash_payments rows
        = total Row.cost_of_revenue (after (cost_of_revenue_delay self))
          + total Row.operating_expenses (after (opex_delay self))
          + total Row.capex (after (capex_delay self)).
Proof.
  destruct (cash_columns self) as (rows & Hrun & _ & Hrow).
  eexists. split; [exact Hrun|]. rewrite projected_rows. cbv zeta. split.
  - apply total_after. intros i row Hi. by apply (Hrow i row Hi).
  - apply total_after3. intros i row Hi. by apply (Hrow i row Hi).
Qed.

(** X6: without cash delays (all four delays unset or zero) cash follows
    the accruals: in every row the cash receipts are the revenue, the cash
    payments are cost of revenue plus operating expenses plus capex, and
    the net cash flow is the net income minus the capex. *)
Theorem prompt_cash (self : FinancialProjection) :
  flt_int (cash_receipt_delay self) = 0%Z →
  flt_int (cost_of_revenue_delay self) = 0%Z →
  flt_int (opex_delay self) = 0%Z →
  flt_int (capex_delay self) = 0%Z →
  ∃ self',
    calculate_projections self = Ok self'
    ∧ Forall (λ row,
        Row.cash_receipts row = Row.revenue row
        ∧ Row.cash_payments row
          = Row.cost_of_revenue row + Row.operating_expenses row
            + Row.capex row
        ∧ Row.net_cash_flow row = Row.net_income row - Row.capex row)
      (monthly_projections self').
Proof.
  intros Hreceipt Hcor Hopex Hcapex.
  destruct (cash_columns self) as (rows & Hrun & _ & Hrow).
  eexists. split; [exact Hrun|]. rewrite projected_rows.
  apply Forall_lookup. intros i row Hi.
  destruct (Hrow i row Hi) as (Hr & Hp & Hn & Hinc). cbv zeta in Hr, Hp.
  rewrite Hreceipt in Hr. rewrite Hcor, Hopex, Hcapex in Hp.
  destruct (Z.ltb_spec 0 (Z.of_nat (S i))); [|lia].
  rewrite Hn, Hinc, Hr, Hp. repeat split; ring.
Qed.

Lemma prompt_cash_witness :
  ∃ self',
    calculate_projections prompt_doc = Ok self'
    ∧ Forall (λ row,
        Row.cash_receipts row = Row.revenue row
        ∧ Row.cash_payments row
          = Row.cost_of_revenue row + Row.operating_expenses row
            + Row.capex row
        ∧ Row.net_cash_flow row = Row.net_income row - Row.capex row)
      (monthly_projections self').
Proof.
  exact (prompt_cash prompt_doc eq_refl eq_refl eq_refl eq_refl).
Defined.

(** ** Closed forms of revenue and cost of revenue *)

Lemma type_sales_cons (line : Revenue.line) (lines : list Revenue.line)
    (key : option string) :
  type_sales (line :: lines) key
  = (if decide (truthy_str (Revenue.revenue_type line) = true
                ∧ Revenue.revenue_type line = key)
     then flt (Revenue.monthly_new_sales line) else 0)
    + type_sales lines key.
Proof.
  unfold type_sales. rewrite filter_cons.
  destruct (decide _); simpl; [done|]. by rewrite Qcplus_0_l.
Qed.

Lemma type_sales_nil (key : option string) : type_sales [] key = 0.
Proof. reflexivity. Qed.

(** What one line does to the carried entry of any revenue type. *)
Lemma revenue_line_body_entry (month_num year_num month_in_year : Z)
    (line : Revenue.line) (carried : gmap (option string) Qc)
    (key : option string) :
  default 0
    ((revenue_line_body month_num year_num month_in_year (0, carried)
        line).2 !! key)
  = default 0 (carried !! key) + type_sales [line] key.
Proof.
  rewrite type_sales_cons, type_sales_nil, Qcplus_0_r.
  destruct (truthy_str (Revenue.revenue_type line)) eqn:Hnamed.
  - rewrite revenue_line_body_named by done. cbn [snd].
    destruct (decide (Revenue.revenue_type line = key)) as [<-|Hne].
    + rewrite lookup_insert_eq. by rewrite decide_True.
    + rewrite lookup_insert_ne by done.
      rewrite decide_False by (by intros [_ ?]). by rewrite Qcplus_0_r.
  - unfold revenue_line_body. rewrite Hnamed. cbn [negb snd].
    rewrite decide_False by (by intros [? _]). by rewrite Qcplus_0_r.
Qed.

Lemma revenue_pass_entry (month_num year_num month_in_year : Z)
    (lines : list Revenue.line) (carried : gmap (option string) Qc)
    (key : option string) :
  default 0
    ((revenue_contributions month_num year_num month_in_year lines
        carried).2 !! key)
  = default 0 (carried !! key) + type_sales lines key.
Proof.
  revert carried. induction lines as [|line lines IH]; intros carried;
    cbn [revenue_contributions fst snd].
  - by rewrite type_sales_nil, Qcplus_0_r.
  - rewrite IH, revenue_line_body_entry, (type_sales_cons line lines).
    rewrite (type_sales_cons line []), type_sales_nil. ring.
Qed.

Lemma revenue_pass_amounts (month_num year_num month_in_year : Z)
    (lines : list Revenue.line) (carried : gmap (option string) Qc) :
  (revenue_contributions month_num year_num month_in_year lines carried).1
  = imap (λ i line,
            if truthy_str (Revenue.revenue_type line) then
              monthly_revenue line month_in_year
                (default 0 (carried !! Revenue.revenue_type line)
                 + type_sales (take (S i) lines) (Revenue.revenue_type line))
                (get_monthly_price line year_num)
            else 0) lines.
Proof.
  revert carried. induction lines as [|line lines IH]; intros carried;
    cbn [revenue_contributions fst snd]; [done|].
  rewrite imap_cons. f_equal.
  - destruct (truthy_str (Revenue.revenue_type line)) eqn:Hnamed.
    + rewrite revenue_line_body_named by done. cbn [fst take].
      rewrite type_sales_cons, type_sales_nil, decide_True by done.
      rewrite Qcplus_0_l. do 2 f_equal. ring.
    + unfold revenue_line_body. by rewrite Hnamed.
  - rewrite IH. apply imap_ext. intros i line' _. unfold compose.
    cbn [take].
    destruct (truthy_str (Revenue.revenue_type line')); [|done].
    f_equal. rewrite revenue_line_body_entry.
    rewrite (type_sales_cons line (take (S i) lines)).
    rewrite (type_sales_cons line []), type_sales_nil. ring.
Qed.

Lemma cost_pass_amounts (self : FinancialProjection)
    (month_num year_num : Z) (carried : gmap (option string) Qc)
    (lines : list Cost.line) (total_cost : Qc) :
  (len (monthly_projections self) < month_num)%Z →
  (∀ key, default 0 (carried !! key)
          = of_int month_num * type_sales (revenue_assumptions self) key) →
  for_each (cost_line_body self month_num year_num carried) lines total_cost
  = Ok (total_cost + sum_amounts (cost_amount self month_num <$> lines)).
Proof.
  intros Hlen Hcarried. revert total_cost.
  induction lines as [|line lines IH]; intros total_cost; simpl.
  - by rewrite Qcplus_0_r.
  - unfold cost_line_body at 1, cost_amount at 1.
    destruct (truthy_str (Cost.cost_type line)); simpl.
    + rewrite monthly_cost_pending by done. simpl. rewrite IH. f_equal.
      unfold get_cost_instances. rewrite Hcarried.
      symmetry. apply Qcplus_assoc.
    + rewrite IH. f_equal. by rewrite Qcplus_0_l.
Qed.

(** Revenue and cost of revenue of every projected row in terms of the
    assumption lines. *)
Lemma closed_forms (self : FinancialProjection) :
  ∃ rows,
    calculate_projections self
    = Ok (update_summary_fields (set_monthly_projections rows self))
    ∧ length rows = Z.to_nat (total_months self)
    ∧ ∀ i row, rows !! i = Some row →
        let m := Z.of_nat (S i) in
        Row.revenue row
        = sum_amounts
            (imap (revenue_amount (revenue_assumptions self) m)
               (revenue_assumptions self))
        ∧ Row.cost_of_revenue row
          = sum_amounts (cost_amount self m <$> cost_assumptions self).
Proof.
  set (I := λ (k : nat) (_ : list Row.t) (st : Loop.state),
    ∀ key, default 0 (Loop.carried_instances st !! key)
           = of_int (Z.of_nat k) * type_sales (revenue_assumptions self) key).
  set (Q := λ (prefix : list Row.t) (row : Row.t),
    let m := Z.of_nat (S (length prefix)) in
    Row.revenue row = sum_amounts
        (imap (revenue_amount (revenue_assumptions self) m)
           (revenue_assumptions self))
    ∧ Row.cost_of_revenue row
      = sum_amounts (cost_amount self m <$> cost_assumptions self)).
  destruct (projection_inv self I Q)
    as (st & rows & Hrun & _ & _ & Hlen & _ & HQ).
  { intros key. cbn [loop_init Loop.carried_instances Z.of_nat].
    rewrite lookup_empty. cbn [default].
    change (of_int 0) with (Q2Qc 0). by rewrite Qcmult_0_l. }
  { intros k st rows revenue carried cost _ _ Hlen HI Hrev Hcost row.
    unfold calculate_monthly_revenue in Hrev.
    rewrite revenue_pass_contributions, Qcplus_0_l in Hrev.
    injection Hrev as <- <-.
    assert (Hafter : ∀ key,
      default 0
        ((revenue_contributions (Z.of_nat (S k))
            (year_num_of (Z.of_nat (S k)))
            (month_in_year_of (Z.of_nat (S k)))
            (revenue_assumptions self)
            (Loop.carried_instances st)).2 !! key)
      = of_int (Z.of_nat (S k)) * type_sales (revenue_assumptions self) key).
    { intros key. rewrite revenue_pass_entry, HI, of_int_succ. ring. }
    split; [exact Hafter|]. unfold Q. subst row. simpl. rewrite Hlen. split.
    - rewrite revenue_pass_amounts. f_equal. apply imap_ext.
      intros i line _. simpl. unfold revenue_amount, line_volume.
      destruct (truthy_str (Revenue.revenue_type line)); [|done].
      rewrite HI.
      by replace (Z.of_nat (S k) - 1)%Z with (Z.of_nat k) by lia.
    - unfold calculate_monthly_cost in Hcost.
      rewrite (cost_pass_amounts _ _ _ _ _ _) in Hcost.
      + injection Hcost as <-. by rewrite Qcplus_0_l.
      + simpl. unfold len. lia.
      + exact Hafter. }
  exists rows. split; [exact Hrun|]. split; [exact Hlen|].
  intros i row Hi m. subst m.
  pose proof (HQ i row Hi) as H. unfold Q in H. cbv zeta in H.
  assert (Hlen' : length (take i rows) = i).
  { rewrite length_take. apply lookup_lt_Some in Hi. lia. }
  by rewrite Hlen' in H.
Qed.

(** X7: the revenue of every projected row is determined by the revenue
    lines alone.  Row m's revenue is the sum over the lines of the line's
    monthly revenue, priced at the row's year and position in the year, on
    a volume of (m - 1) months of new sales of all named lines of the
    line's revenue type plus the month-m sales of those lines up to and
    including the line itself; a line without revenue type adds nothing. *)
Theorem revenue_closed_form (self : FinancialProjection) :
  ∃ self',
    calculate_projections self = Ok self'
    ∧ ∀ m, (1 ≤ m ≤ total_months self)%Z →
        ∃ row,
          monthly_projections self' !! Z.to_nat (m - 1) = Some row
          ∧ Row.revenue row
            = sum_amounts
                (imap (revenue_amount (revenue_assumptions self) m)
                   (revenue_assumptions self)).
Proof.
  destruct (closed_forms self) as (rows & Hrun & Hlen & Hrows).
  eexists. split; [exact Hrun|]. rewrite projected_rows. intros m Hm.
  destruct (row_of_month rows (total_months self) m Hlen Hm)
    as (row & Hrow & _ & _ & _).
  exists row. split; [done|].
  destruct (Hrows _ row Hrow) as [Hrev _]. cbv zeta in Hrev.
  by replace (Z.of_nat (S (Z.to_nat (m - 1)))) with m in Hrev by lia.
Qed.

Lemma revenue_closed_form_witness :
  ∃ self',
    calculate_projections shared_type_doc = Ok self'
    ∧ ∃ row,
        monthly_projections self' !! Z.to_nat (5 - 1) = Some row
        ∧ Row.revenue row
          = sum_amounts
              (imap (revenue_amount (revenue_assumptions shared_type_doc) 5)
                 (revenue_assumptions shared_type_doc)).
Proof.
  destruct (revenue_closed_form shared_type_doc) as (self' & Hrun & Hrows).
  exists self'. split; [exact Hrun|].
  apply (Hrows 5%Z). vm_compute. split; discriminate.
Defined.

(** X8: the cost of revenue of every projected row is determined by the
    assumption lines alone.  Row m's cost is the sum over the named cost
    lines of: for Per Instance, cost_per_unit times m months of new sales
    of the named revenue lines of the related revenue type (zero without a
    related type); for Fixed Monthly, cost_per_unit; and zero for every
    other calculation type, Percentage of Revenue included. *)
Theorem cost_closed_form (self : FinancialProjection) :
  ∃ self',
    calculate_projections self = Ok self'
    ∧ ∀ m, (1 ≤ m ≤ total_months self)%Z →
        ∃ row,
          monthly_projections self' !! Z.to_nat (m - 1) = Some row
          ∧ Row.cost_of_revenue row
            = sum_amounts (cost_amount self m <$> cost_assumptions self).
Proof.
  destruct (closed_forms self) as (rows & Hrun & Hlen & Hrows).
  eexists. split; [exact Hrun|]. rewrite projected_rows. intros m Hm.
  destruct (row_of_month rows (total_months self) m Hlen Hm)
    as (row & Hrow & _ & _ & _).
  exists row. split; [done|].
  destruct (Hrows _ row Hrow) as [_ Hcost]. cbv zeta in Hcost.
  by replace (Z.of_nat (S (Z.to_nat (m - 1)))) with m in Hcost by lia.
Qed.

Lemma cost_closed_form_witness :
  ∃ self',
    calculate_projections draft_doc = Ok self'
    ∧ ∃ row,
        monthly_projections self' !! Z.to_nat (5 - 1) = Some row
        ∧ Row.cost_of_revenue row
          = sum_amounts (cost_amount draft_doc 5
                           <$> cost_assumptions draft_doc).
Proof.
  destruct (cost_closed_form draft_doc) as (self' & Hrun & Hrows).
  exists self'. split; [exact Hrun|].
  apply (Hrows 5%Z). vm_compute. split; discriminate.
Defined.

(** ** Capital expenditure over the run *)

Lemma capex_pass (month_num : Z) (lines : list Capex.line) (total_capex : Qc) :
  fold_left (capex_line_body month_num) lines total_capex
  = total_capex
    + sum_amounts
        ((λ line,
            if truthy_str (Capex.asset_name line)
               && (month_num =? capex_target line)%Z
            then flt (Capex.cost line) else 0) <$> lines).
Proof.
  revert total_capex. induction lines as [|line lines IH]; intros total_capex.
  - simpl. by rewrite Qcplus_0_r.
  - cbn [fold_left fmap list_fmap sum_amounts foldr]. rewrite IH.
    unfold capex_line_body, capex_target. cbv zeta.
    destruct (truthy_str (Capex.asset_name line)); cbn [negb andb].
    + destruct (month_num =? _)%Z; unfold sum_amounts; ring.
    + unfold sum_amounts; ring.
Qed.

Lemma capex_within_succ (lines : list Capex.line) (k : nat) :
  capex_within lines (Z.of_nat (S k))
  = capex_within lines (Z.of_nat k)
    + sum_amounts
        ((λ line,
            if truthy_str (Capex.asset_name line)
               && (Z.of_nat (S k) =? capex_target line)%Z
            then flt (Capex.cost line) else 0) <$> lines).
Proof.
  unfold capex_within. induction lines as [|line lines IH].
  - simpl. by rewrite Qcplus_0_r.
  - cbn [fmap list_fmap sum_amounts foldr] in *.
    unfold sum_amounts in IH. rewrite IH.
    destruct (truthy_str (Capex.asset_name line)); cbn [andb]; [|ring].
    destruct (Z.leb_spec 1 (capex_target line));
      destruct (Z.leb_spec (capex_target line) (Z.of_nat (S k)));
      destruct (Z.leb_spec (capex_target line) (Z.of_nat k));
      destruct (Z.eqb_spec (Z.of_nat (S k)) (capex_target line));
      cbn [andb]; try lia; ring.
Qed.

Lemma capex_within_none (lines : list Capex.line) (n : Z) :
  (n ≤ 0)%Z → capex_within lines n = 0.
Proof.
  intros Hn. unfold capex_within. induction lines as [|line lines IH];
    [done|].
  cbn [fmap list_fmap sum_amounts foldr] in *. unfold sum_amounts in IH.
  rewrite IH.
  destruct (truthy_str (Capex.asset_name line)); cbn [andb];
    [|by rewrite Qcplus_0_l].
  destruct (Z.leb_spec 1 (capex_target line));
    destruct (Z.leb_spec (capex_target line) n);
    cbn [andb]; try lia; by rewrite Qcplus_0_l.
Qed.

(** X9: every named capex line is recognised exactly once if its purchase
    month (purchase_year - 1) x 12 + purchase_month, an unset or zero year
    or month counting as 1, lies within the horizon, and never otherwise:
    over all projected rows, capex adds up to the cost of the named lines
    whose purchase month is between 1 and total_months. *)
Theorem capex_recognised_once (self : FinancialProjection) :
  ∃ self',
    calculate_projections self = Ok self'
    ∧ total Row.capex (monthly_projections self')
      = capex_within (capex_assumptions self) (total_months self).
Proof.
  set (I := λ (k : nat) (rows : list Row.t) (_ : Loop.state),
    total Row.capex rows
    = capex_within (capex_assumptions self) (Z.of_nat k)).
  destruct (projection_inv self I (λ _ _, True))
    as (st & rows & Hrun & _ & _ & Hlen & HI & _).
  { unfold I. by rewrite capex_within_none. }
  { intros k st rows revenue carried cost _ Hself _ HI _ _ row.
    split; [|done]. unfold I in *. rewrite total_snoc, HI, capex_within_succ.
    f_equal. subst row. simpl. rewrite Hself.
    unfold calculate_monthly_capex. simpl.
    rewrite capex_pass. by rewrite Qcplus_0_l. }
  eexists. split; [exact Hrun|]. rewrite projected_rows.
  unfold I in HI. rewrite HI, Hlen.
  destruct (Z.le_gt_cases 0 (total_months self)).
  - by rewrite Z2Nat.id.
  - replace (Z.to_nat (total_months self)) with 0%nat by lia.
    by rewrite !capex_within_none by lia.
Qed.

(** ** Summary against the rows of the run *)

Lemma year_total_nil (f : Row.t → Qc) (y : Z) : year_total f y [] = 0.
Proof. reflexivity. Qed.

(** For rows whose year is derived from their position, the totals of
    years 1 to 3 cover exactly the first 36 rows. *)
Lemma three_year_totals (f : Row.t → Qc) (rows : list Row.t) :
  (∀ i row, rows !! i = Some row →
     Row.year_number row = year_num_of (Z.of_nat (S i))) →
  year_total f 1 rows + year_total f 2 rows + year_total f 3 rows
  = total f (take 36 rows).
Proof.
  induction rows as [|row rows IH] using rev_ind; intros Hyear.
  - unfold year_total, total. simpl. ring.
  - rewrite !year_total_app, take_app, total_app_rows.
    rewrite <- IH by (intros i r Hi; apply Hyear; by apply lookup_app_l_Some).
    assert (Hrow : Row.year_number row
                   = (1 + Z.of_nat (length rows) / 12)%Z).
    { rewrite (Hyear (length rows) row)
        by (rewrite lookup_app_r by lia; by rewrite Nat.sub_diag).
      unfold year_num_of.
      replace (Z.of_nat (S (length rows)) - 1)%Z
        with (Z.of_nat (length rows)) by lia.
      lia. }
    rewrite !year_total_cons, !year_total_nil, Hrow.
    assert (Hq : (0 ≤ Z.of_nat (length rows) / 12)%Z)
      by (apply Z.div_pos; lia).
    destruct (Nat.lt_ge_cases (length rows) 36) as [Hlt|Hge].
    + assert ((Z.of_nat (length rows) / 12 < 3)%Z)
        by (apply Z.div_lt_upper_bound; lia).
      rewrite (take_ge [row]) by (simpl; lia).
      change (total f [row]) with (f row + 0).
      repeat case_decide; try lia; ring.
    + assert ((3 ≤ Z.of_nat (length rows) / 12)%Z)
        by (apply Z.div_le_lower_bound; lia).
      replace (36 - length rows)%nat with 0%nat by lia.
      change (total f (take 0 [row])) with (Q2Qc 0).
      repeat case_decide; try lia; ring.
Qed.

(** X10: after a projection over at least one month the three yearly
    totals of the summary add up to the sums over the first 36 monthly rows:
    total_revenue_y1 + y2 + y3 is the revenue of months 1..36, and likewise
    for gross profit and net income.  Months after the third year are in no
    summary field. *)
Theorem summary_adds_up (self : FinancialProjection) :
  (0 < total_months self)%Z →
  ∃ self',
    calculate_projections self = Ok self'
    ∧ let rows := take 36 (monthly_projections self') in
      let s := summary self' in
      total_revenue_y1 s + total_revenue_y2 s + total_revenue_y3 s
      = total Row.revenue rows
      ∧ total_gross_profit_y1 s + total_gross_profit_y2 s
        + total_gross_profit_y3 s
        = total Row.gross_profit rows
      ∧ total_net_income_y1 s + total_net_income_y2 s
        + total_net_income_y3 s
        = total Row.net_income rows.
Proof.
  intros Hmonths.
  destruct (projection_inv self (λ _ _ _, True)
    (λ prefix row,
       Row.year_number row = year_num_of (Z.of_nat (S (length prefix)))))
    as (st & rows & Hrun & _ & _ & Hlen & _ & HQ).
  { done. }
  { by intros k st rows revenue carried cost _ _ <- _ _ _ row. }
  eexists. split; [exact Hrun|]. rewrite projected_rows. cbv zeta.
  assert (Hyear : ∀ i row, rows !! i = Some row →
            Row.year_number row = year_num_of (Z.of_nat (S i))).
  { intros i row Hi. rewrite (HQ i row Hi), length_take.
    apply lookup_lt_Some in Hi. do 3 f_equal. lia. }
  assert (Hrows : monthly_projections (set_monthly_projections rows self)
                  ≠ []).
  { simpl. destruct rows; [simpl in Hlen; lia|done]. }
  pose proof (update_summary_fields_matches _ Hrows) as Hsum.
  unfold summary_matches_rows in Hsum. rewrite projected_rows in Hsum.
  cbv zeta in Hsum.
  destruct Hsum as (-> & -> & -> & -> & -> & -> & -> & -> & ->).
  rewrite !three_year_totals by done. done.
Qed.

Lemma summary_adds_up_witness :
  ∃ self',
    calculate_projections prompt_doc = Ok self'
    ∧ let rows := take 36 (monthly_projections self') in
      let s := summary self' in
      total_revenue_y1 s + total_revenue_y2 s + total_revenue_y3 s
      = total Row.revenue rows
      ∧ total_gross_profit_y1 s + total_gross_profit_y2 s
        + total_gross_profit_y3 s
        = total Row.gross_profit rows
      ∧ total_net_income_y1 s + total_net_income_y2 s
        + total_net_income_y3 s
        = total Row.net_income rows.
Proof. exact (summary_adds_up prompt_doc eq_refl). Defined.

(** X11: update_summary_fields touches nothing but the nine summary
    fields, and applying it a second time changes nothing more. *)
Theorem update_summary_fields_again (self : FinancialProjection) :
  update_summary_fields (update_summary_fields self)
  = update_summary_fields self
  ∧ ∃ s, update_summary_fields self = set_summary s self.
Proof.
  split; [|eexists; apply update_summary_fields_shape].
  rewrite (update_summary_fields_shape self) at 1.
  rewrite update_summary_fields_absorb.
  destruct (truthy_list (monthly_projections self)); [done|].
  by rewrite <- update_summary_fields_shape.
Qed.

(** ** Validation messages *)

(** X12: validation looks at opex_delay first and at nothing but the two
    delays it names.  An OPEX delay outside [0,6] raises the OPEX message
    whatever the CAPEX delay is; the CAPEX message is raised only when the
    OPEX delay passes; and two documents with the same opex_delay and
    capex_delay get the same answer, so cash_receipt_delay and
    cost_of_revenue_delay are never checked. *)
Theorem validate_delays_message (self : FinancialProjection) :
  (out_of_range (opex_delay self) →
     validate_delays self
     = Raise (ValidationError "OPEX Delay must be between 0 and 6 months"))
  ∧ (¬ out_of_range (opex_delay self) → out_of_range (capex_delay self) →
     validate_delays self
     = Raise (ValidationError "CAPEX Delay must be between 0 and 6 months"))
  ∧ (∀ self',
       opex_delay self' = opex_delay self →
       capex_delay self' = capex_delay self →
       validate_delays self' = validate_delays self).
Proof.
  unfold validate_delays. split; [|split].
  - intros Ho. apply delay_check in Ho. by rewrite Ho.
  - intros Ho Hc. apply delay_check in Hc.
    destruct (truthy_int (opex_delay self) && _) eqn:Ho'.
    + by apply delay_check in Ho'.
    + simpl. by rewrite Hc.
  - intros self' -> ->. done.
Qed.

Lemma validate_delays_message_witness :
  validate_delays late_both_doc
  = Raise (ValidationError "OPEX Delay must be between 0 and 6 months")
  ∧ validate_delays late_opex_doc = validate_delays late_both_doc.
Proof.
  destruct (validate_delays_message late_both_doc) as (Hopex & _ & Hsame).
  destruct (validate_delays_message late_opex_doc) as (Hopex' & _).
  split.
  - apply Hopex. exists 9%Z. split; [reflexivity | lia].
  - rewrite Hopex by (exists 9%Z; split; [reflexivity | lia]).
    apply Hopex'. exists 7%Z. split; [reflexivity | lia].
Defined.

(** ** The positional revenue lookup *)

(** X13: get_related_revenue never looks at the revenue type it is given.
    With month_num between 1 and the number of rows it returns the total
    revenue of row month_num; beyond the last row, and on a document
    without rows, it returns 0; a month_num of 0 or below is taken as an
    index from the end of the rows, and one below 1 - len(rows) raises
    IndexError. *)
Theorem get_related_revenue_cases (self : FinancialProjection) (month_num : Z)
    (revenue_type : option string) :
  let rows := monthly_projections self in
  ((1 ≤ month_num ≤ len rows)%Z →
     ∃ row, rows !! Z.to_nat (month_num - 1) = Some row
            ∧ get_related_revenue self month_num revenue_type
              = Ok (Row.revenue row))
  ∧ ((len rows < month_num)%Z →
     get_related_revenue self month_num revenue_type = Ok 0)
  ∧ (rows = [] → get_related_revenue self month_num revenue_type = Ok 0)
  ∧ (rows ≠ [] → (1 - len rows ≤ month_num ≤ 0)%Z →
     ∃ row, rows !! Z.to_nat (len rows + month_num - 1) = Some row
            ∧ get_related_revenue self month_num revenue_type
              = Ok (Row.revenue row))
  ∧ (rows ≠ [] → (month_num < 1 - len rows)%Z →
     get_related_revenue self month_num revenue_type = Raise IndexError).
Proof.
  intros rows. subst rows. unfold get_related_revenue, py_getitem, len.
  set (rows := monthly_projections self).
  split; [|split; [|split; [|split]]].
  - intros Hm.
    destruct (lookup_lt_is_Some_2 rows (Z.to_nat (month_num - 1)))
      as [row Hrow]; [lia|].
    exists row. split; [done|].
    destruct rows as [|r rows']; [simpl in Hm; lia|]. cbn [truthy_list andb].
    destruct (Z.leb_spec month_num (Z.of_nat (length (r :: rows'))));
      [|lia].
    destruct (Z.ltb_spec (month_num - 1) 0); [lia|].
    destruct (Z.ltb_spec (month_num - 1) 0); [lia|].
    by rewrite Hrow.
  - intros Hm.
    destruct (Z.leb_spec month_num (Z.of_nat (length rows))); [lia|].
    by rewrite andb_false_r.
  - by intros ->.
  - intros Hrows Hm.
    destruct (lookup_lt_is_Some_2 rows
                (Z.to_nat (Z.of_nat (length rows) + month_num - 1)))
      as [row Hrow]; [lia|].
    exists row. split; [done|].
    destruct rows as [|r rows']; [done|]. cbn [truthy_list andb].
    destruct (Z.leb_spec month_num (Z.of_nat (length (r :: rows'))));
      [|lia].
    destruct (Z.ltb_spec (month_num - 1) 0); [|lia].
    destruct (Z.ltb_spec (month_num - 1 + Z.of_nat (length (r :: rows'))) 0);
      [lia|].
    replace (month_num - 1 + Z.of_nat (length (r :: rows')))%Z
      with (Z.of_nat (length (r :: rows')) + month_num - 1)%Z by lia.
    by rewrite Hrow.
  - intros Hrows Hm.
    destruct rows as [|r rows']; [done|]. cbn [truthy_list andb].
    destruct (Z.leb_spec month_num (Z.of_nat (length (r :: rows'))));
      [|lia].
    destruct (Z.ltb_spec (month_num - 1) 0); [|lia].
    destruct (Z.ltb_spec (month_num - 1 + Z.of_nat (length (r :: rows'))) 0);
      [done|lia].
Qed.

Lemma get_related_revenue_cases_witness :
  (∃ row, monthly_projections four_year_doc !! Z.to_nat (2 - 1) = Some row
          ∧ get_related_revenue four_year_doc 2 (Some "Consulting"%string)
            = Ok (Row.revenue row))
  ∧ get_related_revenue four_year_doc 4 None = Ok 0
  ∧ get_related_revenue stale_doc 1 None = Ok 0
  ∧ (∃ row, monthly_projections four_year_doc
              !! Z.to_nat (len (monthly_projections four_year_doc) + 0 - 1)
            = Some row
            ∧ get_related_revenue four_year_doc 0 None = Ok (Row.revenue row))
  ∧ get_related_revenue four_year_doc (-3) None = Raise IndexError.
Proof.
  destruct (get_related_revenue_cases four_year_doc 2
              (Some "Consulting"%string)) as (Hrow & _).
  destruct (get_related_revenue_cases four_year_doc 4 None)
    as (_ & Hbeyond & _).
  destruct (get_related_revenue_cases stale_doc 1 None)
    as (_ & _ & Hnone & _).
  destruct (get_related_revenue_cases four_year_doc 0 None)
    as (_ & _ & _ & Hwrap & _).
  destruct (get_related_revenue_cases four_year_doc (-3) None)
    as (_ & _ & _ & _ & Hraise).
  refine (conj _ (conj _ (conj _ (conj _ _)))).
  - apply Hrow. vm_compute. split; discriminate.
  - apply Hbeyond. reflexivity.
  - apply Hnone. reflexivity.
  - apply Hwrap; [discriminate|]. vm_compute. split; discriminate.
  - apply Hraise; [discriminate | reflexivity].
Defined.

(** ** Prices and volumes *)

(** X14: the price of a revenue line is its price_per_unit throughout year
    1, and from one year to the next it grows by the factor
    1 + annual_price_increase/100; without an increase it never changes. *)
Theorem price_compounds (line : Revenue.line) (year_num : Z) :
  ((year_num ≤ 1)%Z →
     get_monthly_price line year_num = flt (Revenue.price_per_unit line))
  ∧ ((1 ≤ year_num)%Z →
     get_monthly_price line (year_num + 1)
     = get_monthly_price line year_num
       * (1 + flt (Revenue.annual_price_increase line) / of_int 100)).
Proof.
  unfold get_monthly_price. split; intros Hyear.
  - destruct (Z.ltb_spec 1 year_num); [lia|]. by rewrite andb_false_r.
  - destruct (Z.ltb_spec 1 (year_num + 1)); [|lia].
    destruct (truthy_num (Revenue.annual_price_increase line)) eqn:Hinc;
      cbn [andb].
    + replace (Z.to_nat (year_num + 1 - 1)) with (S (Z.to_nat (year_num - 1)))
        by lia.
      destruct (Z.ltb_spec 1 year_num).
      * simpl. ring.
      * replace (Z.to_nat (year_num - 1)) with 0%nat by lia. simpl. ring.
    + rewrite (truthy_num_false _ Hinc), zero_div, Qcplus_0_r.
      by rewrite Qcmult_1_r.
Qed.

Lemma price_compounds_witness :
  get_monthly_price setup_fee 1 = flt (Revenue.price_per_unit setup_fee)
  ∧ get_monthly_price setup_fee (2 + 1)
    = get_monthly_price setup_fee 2
      * (1 + flt (Revenue.annual_price_increase setup_fee) / of_int 100).
Proof.
  split.
  - apply (price_compounds setup_fee 1). vm_compute. discriminate.
  - apply (price_compounds setup_fee 2). vm_compute. discriminate.
Defined.

(** * Single lines in the calculators and in the run *)

(** The revenue pass of every month of the run: the state entering the
    month, the volume it carries, and the amounts of the pass, whose sum is
    the revenue of the row. *)
Lemma run_passes (self : FinancialProjection) :
  ∃ rows,
    calculate_projections self
    = Ok (update_summary_fields (set_monthly_projections rows self))
    ∧ length rows = Z.to_nat (total_months self)
    ∧ ∀ i row, rows !! i = Some row →
        let m := Z.of_nat (S i) in
        ∃ st,
          run_months self i = Ok st
          ∧ (∀ key, default 0 (Loop.carried_instances st !! key)
                    = of_int (Z.of_nat i)
                      * type_sales (revenue_assumptions self) key)
          ∧ let pass :=
              revenue_contributions m (year_num_of m) (month_in_year_of m)
                (revenue_assumptions self) (Loop.carried_instances st) in
            Row.revenue row = sum_amounts pass.1
            ∧ pass.1
              = imap (revenue_amount (revenue_assumptions self) m)
                  (revenue_assumptions self)
            ∧ Row.operating_expenses row
              = calculate_monthly_opex self m (year_num_of m)
                  (month_in_year_of m).
Proof.
  set (I := λ (k : nat) (_ : list Row.t) (st : Loop.state),
    ∀ key, default 0 (Loop.carried_instances st !! key)
           = of_int (Z.of_nat k) * type_sales (revenue_assumptions self) key).
  set (Q := λ (prefix : list Row.t) (row : Row.t),
    let m := Z.of_nat (S (length prefix)) in
    ∃ st,
      run_months self (length prefix) = Ok st
      ∧ (∀ key, default 0 (Loop.carried_instances st !! key)
                = of_int (Z.of_nat (length prefix))
                  * type_sales (revenue_assumptions self) key)
      ∧ let pass :=
          revenue_contributions m (year_num_of m) (month_in_year_of m)
            (revenue_assumptions self) (Loop.carried_instances st) in
        Row.revenue row = sum_amounts pass.1
        ∧ pass.1
          = imap (revenue_amount (revenue_assumptions self) m)
              (revenue_assumptions self)
        ∧ Row.operating_expenses row
          = calculate_monthly_opex self m (year_num_of m)
              (month_in_year_of m)).
  destruct (projection_inv self I Q)
    as (st & rows & Hrun & _ & _ & Hlen & _ & HQ).
  { intros key. cbn [loop_init Loop.carried_instances Z.of_nat].
    rewrite lookup_empty. cbn [default].
    change (of_int 0) with (Q2Qc 0). by rewrite Qcmult_0_l. }
  { intros k st rows revenue carried cost Hrun Hself Hlen HI Hrev _ row.
    unfold calculate_monthly_revenue in Hrev.
    rewrite revenue_pass_contributions, Qcplus_0_l in Hrev.
    injection Hrev as <- <-. split.
    - intros key. cbn [month_next Loop.carried_instances].
      rewrite revenue_pass_entry, HI, of_int_succ. ring.
    - unfold Q. rewrite Hlen. exists st. split; [done|]. split; [exact HI|].
      cbv zeta. subst row. unfold month_row. cbn [Row.revenue
        Row.operating_expenses]. rewrite Hself.
      autorewrite with doc_rows. split; [done|]. split; [|done].
      rewrite revenue_pass_amounts. apply imap_ext.
      intros i line _. cbv beta. unfold revenue_amount, line_volume.
      destruct (truthy_str (Revenue.revenue_type line)); [|done].
      rewrite HI.
      by replace (Z.of_nat (S k) - 1)%Z with (Z.of_nat k) by lia. }
  exists rows. split; [exact Hrun|]. split; [exact Hlen|].
  intros i row Hi m. subst m.
  pose proof (HQ i row Hi) as H. unfold Q in H. cbv zeta in H.
  assert (Hlen' : length (take i rows) = i).
  { rewrite length_take. apply lookup_lt_Some in Hi. lia. }
  by rewrite Hlen' in H.
Qed.

Lemma lookup_imap_middle {A B} (f : nat → A → B) (pre post : list A) (x : A) :
  imap f (pre ++ x :: post) !! length pre = Some (f (length pre) x).
Proof. by rewrite list_lookup_imap, list_lookup_middle. Qed.

Lemma take_middle {A} (pre post : list A) (x : A) :
  take (S (length pre)) (pre ++ x :: post) = pre ++ [x].
Proof.
  rewrite (cons_middle x pre post), app_assoc.
  apply take_app_length'. rewrite length_app. simpl. lia.
Qed.

Lemma sum_amounts_app (l1 l2 : list Qc) :
  sum_amounts (l1 ++ l2) = sum_amounts l1 + sum_amounts l2.
Proof.
  unfold sum_amounts. induction l1 as [|x l1 IH]; simpl.
  - by rewrite Qcplus_0_l.
  - rewrite IH. ring.
Qed.

Lemma type_sales_app (lines1 lines2 : list Revenue.line)
    (key : option string) :
  type_sales (lines1 ++ lines2) key
  = type_sales lines1 key + type_sales lines2 key.
Proof.
  unfold type_sales. by rewrite filter_app, fmap_app, sum_amounts_app.
Qed.

Lemma type_sales_middle (pre post : list Revenue.line) (line : Revenue.line) :
  truthy_str (Revenue.revenue_type line) = true →
  type_sales (pre ++ line :: post) (Revenue.revenue_type line)
  = type_sales (pre ++ post) (Revenue.revenue_type line)
    + flt (Revenue.monthly_new_sales line).
Proof.
  intros Hnamed. rewrite !type_sales_app, type_sales_cons.
  rewrite decide_True by done. ring.
Qed.

(** ** One-Time revenue lines *)

(** C5: a One-Time line with a revenue type and a positive
    implementation_months, anywhere among the revenue lines.  In every pass
    of calculate_monthly_revenue the amount that the line adds to the
    returned total is (instances x price) / implementation_months when
    month_in_year is at most implementation_months and 0 otherwise, with
    instances the carried volume of its revenue type after the line's own
    new sales are added.  In the run, the revenue of row m is the sum of the
    amounts of the pass of month m, in which the line's amount is that
    formula at month_in_year = ((m - 1) mod 12) + 1 and the price of the
    row's year; the position in the year repeats every twelve months, so the
    spread starts again in every year. *)
Theorem one_time_spread (self : FinancialProjection)
    (pre post : list Revenue.line) (line : Revenue.line) (n : Z) :
  revenue_assumptions self = pre ++ line :: post →
  truthy_str (Revenue.revenue_type line) = true →
  Revenue.calculation_type line = Some "One-Time"%string →
  Revenue.implementation_months line = Some n →
  (0 < n)%Z →
  let key := Revenue.revenue_type line in
  let spread (month_in_year : Z) (instances price : Qc) : Qc :=
    if bool_decide (month_in_year ≤ n)%Z
    then (instances * price) / of_int n else 0 in
  (∀ month_num year_num month_in_year carried,
     let pass :=
       revenue_contributions month_num year_num month_in_year
         (revenue_assumptions self) carried in
     let instances :=
       default 0 (carried !! key) + type_sales (pre ++ [line]) key in
     calculate_monthly_revenue self month_num year_num month_in_year carried
     = (sum_amounts pass.1, pass.2)
     ∧ pass.1 !! length pre
       = Some (spread month_in_year instances
                 (get_monthly_price line year_num)))
  ∧ (∃ self',
       calculate_projections self = Ok self'
       ∧ ∀ m, (1 ≤ m ≤ total_months self)%Z →
           ∃ row st,
             monthly_projections self' !! Z.to_nat (m - 1) = Some row
             ∧ run_months self (Z.to_nat (m - 1)) = Ok st
             ∧ let pass :=
                 revenue_contributions m (year_num_of m) (month_in_year_of m)
                   (revenue_assumptions self) (Loop.carried_instances st) in
               let instances :=
                 of_int (m - 1) * type_sales (revenue_assumptions self) key
                 + type_sales (pre ++ [line]) key in
               Row.revenue row = sum_amounts pass.1
               ∧ pass.1 !! length pre
                 = Some (spread (month_in_year_of m) instances
                           (get_monthly_price line (year_num_of m))))
  ∧ (∀ m, month_in_year_of m = ((m - 1) mod 12 + 1)%Z
          ∧ month_in_year_of (m + 12) = month_in_year_of m).
Proof.
  intros Hlines Hnamed Hkind Hmonths Hpos key spread.
  split; [|split].
  - intros month_num year_num month_in_year carried pass instances. split.
    + unfold calculate_monthly_revenue.
      rewrite revenue_pass_contributions. by rewrite Qcplus_0_l.
    + subst pass instances spread. rewrite revenue_pass_amounts, Hlines.
      rewrite lookup_imap_middle, take_middle, Hnamed.
      by rewrite (monthly_revenue_one_time line month_in_year n).
  - destruct (run_passes self) as (rows & Hrun & Hlen & Hrows).
    eexists. split; [exact Hrun|]. rewrite projected_rows. intros m Hm.
    destruct (row_of_month rows (total_months self) m Hlen Hm)
      as (row & Hrow & _ & _ & _).
    destruct (Hrows _ row Hrow) as (st & Hst & _ & Hsum & Hpass & _).
    cbv zeta in Hsum, Hpass.
    replace (Z.of_nat (S (Z.to_nat (m - 1)))) with m in Hsum, Hpass by lia.
    exists row, st. split; [done|]. split; [done|]. cbv zeta.
    split; [done|]. rewrite Hpass. subst spread. cbv beta.
    rewrite Hlines at 2. rewrite lookup_imap_middle.
    unfold revenue_amount, line_volume. rewrite Hnamed.
    rewrite Hlines at 2. rewrite take_middle.
    by rewrite (monthly_revenue_one_time line (month_in_year_of m) n).
  - intros m. split; [done|]. apply month_in_year_period.
Qed.

Lemma one_time_spread_witness :
  ∃ self',
    calculate_projections (two_year_doc [engineer]) = Ok self'
    ∧ ∃ row st,
        monthly_projections self' !! Z.to_nat (14 - 1) = Some row
        ∧ run_months (two_year_doc [engineer]) (Z.to_nat (14 - 1)) = Ok st
        ∧ let pass :=
            revenue_contributions 14 (year_num_of 14) (month_in_year_of 14)
              (revenue_assumptions (two_year_doc [engineer]))
              (Loop.carried_instances st) in
          let instances :=
            of_int (14 - 1)
            * type_sales (revenue_assumptions (two_year_doc [engineer]))
                (Revenue.revenue_type setup_fee)
            + type_sales ([subscriptions; untyped_revenue] ++ [setup_fee])
                (Revenue.revenue_type setup_fee) in
          Row.revenue row = sum_amounts pass.1
          ∧ pass.1 !! length [subscriptions; untyped_revenue]
            = Some ((λ (month_in_year : Z) (instances price : Qc),
                       if bool_decide (month_in_year ≤ 3)%Z
                       then (instances * price) / of_int 3 else 0)
                      (month_in_year_of 14) instances
                      (get_monthly_price setup_fee (year_num_of 14))).
Proof.
  destruct (one_time_spread (two_year_doc [engineer])
              [subscriptions; untyped_revenue] [] setup_fee 3
              eq_refl eq_refl eq_refl eq_refl eq_refl)
    as (_ & (self' & Hrun & Hrows) & _).
  exists self'. split; [exact Hrun|].
  apply (Hrows 14%Z). vm_compute. split; discriminate.
Defined.

(** In month 14 of the sample document the spread is running again: the
    One-Time line earns (14 x 11) x 330 / 3 = 16940. *)
Example spread_restarts_in_year_two :
  (revenue_contributions 14 (year_num_of 14) (month_in_year_of 14)
     (revenue_assumptions (two_year_doc [engineer]))
     {[ Some "Subscriptions"%string := of_int (13 * 11) ]}).1 !! 2%nat
  = Some (of_int 16940).
Proof. simpl. f_equal; qc_closed. Qed.

(** ** Staffing lines in the calculator *)

Lemma staff_line_body_acc (month_num year_num : Z) (total_opex : Qc)
    (line : Staff.line) :
  staff_line_body month_num year_num total_opex line
  = total_opex + staff_line_body month_num year_num 0 line.
Proof.
  unfold staff_line_body.
  destruct (negb (truthy_str (Staff.position_title line)));
    [by rewrite Qcplus_0_r|].
  cbv zeta.
  destruct (py_or (Staff.start_month line) 1 <=? month_num)%Z;
    [|by rewrite Qcplus_0_r].
  by rewrite Qcplus_0_l.
Qed.

Lemma opex_pass (month_num year_num : Z) (lines : list Staff.line)
    (total_opex : Qc) :
  fold_left (staff_line_body month_num year_num) lines total_opex
  = total_opex
    + sum_amounts (staff_line_body month_num year_num 0 <$> lines).
Proof.
  revert total_opex. induction lines as [|line lines IH]; intros total_opex.
  - simpl. by rewrite Qcplus_0_r.
  - cbn [fold_left fmap list_fmap]. rewrite IH, staff_line_body_acc.
    symmetry. apply Qcplus_assoc.
Qed.

(** What one staffing line adds to the result of the calculator. *)
Lemma opex_with_line (self self' : FinancialProjection)
    (pre post : list Staff.line) (line : Staff.line)
    (month_num year_num month_in_year : Z) :
  staff_assumptions self = pre ++ line :: post →
  staff_assumptions self' = pre ++ post →
  calculate_monthly_opex self month_num year_num month_in_year
  = calculate_monthly_opex self' month_num year_num month_in_year
    + staff_line_body month_num year_num 0 line.
Proof.
  intros Hself Hself'. unfold calculate_monthly_opex.
  rewrite Hself, Hself', !opex_pass, !fmap_app, fmap_cons.
  rewrite !sum_amounts_app.
  change (sum_amounts
            (staff_line_body month_num year_num 0 line
             :: (staff_line_body month_num year_num 0 <$> post)))
    with (staff_line_body month_num year_num 0 line
          + sum_amounts (staff_line_body month_num year_num 0 <$> post)).
  ring.
Qed.

(** C6: a staffing line with a position title, anywhere among the staffing
    lines.  In every month from its start_month on (an unset or zero
    start_month counting as 1) calculate_monthly_opex returns what it
    returns without the line plus monthly_salary x (1 +
    annual_increase/100)^(year_num - 1) + monthly_benefits +
    vehicle_allowance after year 1, and plus monthly_salary +
    monthly_benefits + vehicle_allowance in year 1: only the salary is
    compounded.  Before its start_month the line adds nothing.  In the run,
    the operating expenses of row m contain that amount at the row's year
    ((m - 1) div 12) + 1. *)
Theorem staff_line_cost (self self' : FinancialProjection)
    (pre post : list Staff.line) (line : Staff.line) :
  staff_assumptions self = pre ++ line :: post →
  staff_assumptions self' = pre ++ post →
  truthy_str (Staff.position_title line) = true →
  let start_month := py_or (Staff.start_month line) 1 in
  let cost (year_num : Z) : Qc :=
    if bool_decide (1 < year_num)%Z
    then flt (Staff.monthly_salary line)
         * (1 + flt (Staff.annual_increase line) / of_int 100)
           ^ Z.to_nat (year_num - 1)
         + flt (Staff.monthly_benefits line)
         + flt (Staff.vehicle_allowance line)
    else flt (Staff.monthly_salary line)
         + flt (Staff.monthly_benefits line)
         + flt (Staff.vehicle_allowance line) in
  (∀ month_num year_num month_in_year,
     (start_month ≤ month_num)%Z →
     calculate_monthly_opex self month_num year_num month_in_year
     = calculate_monthly_opex self' month_num year_num month_in_year
       + cost year_num)
  ∧ (∀ month_num year_num month_in_year,
       (month_num < start_month)%Z →
       calculate_monthly_opex self month_num year_num month_in_year
       = calculate_monthly_opex self' month_num year_num month_in_year)
  ∧ (∃ doc,
       calculate_projections self = Ok doc
       ∧ ∀ m, (1 ≤ m ≤ total_months self)%Z → (start_month ≤ m)%Z →
           ∃ row,
             monthly_projections doc !! Z.to_nat (m - 1) = Some row
             ∧ Row.year_number row = year_num_of m
             ∧ Row.operating_expenses row
               = calculate_monthly_opex self' m (year_num_of m)
                   (month_in_year_of m)
                 + cost (year_num_of m)).
Proof.
  intros Hself Hself' Hnamed start_month cost.
  assert (Hactive : ∀ month_num year_num month_in_year,
     (start_month ≤ month_num)%Z →
     calculate_monthly_opex self month_num year_num month_in_year
     = calculate_monthly_opex self' month_num year_num month_in_year
       + cost year_num).
  { intros month_num year_num month_in_year Hstart.
    rewrite (opex_with_line self self' pre post line) by done. f_equal.
    destruct (staff_line_body_active line month_num year_num 0 Hnamed Hstart)
      as [Hlater Hfirst].
    subst cost. cbv beta.
    destruct (bool_decide_reflect (1 < year_num)%Z).
    - rewrite Hlater by done. by rewrite Qcplus_0_l.
    - rewrite Hfirst by lia. by rewrite Qcplus_0_l. }
  split; [exact Hactive|]. split.
  - intros month_num year_num month_in_year Hstart.
    rewrite (opex_with_line self self' pre post line) by done.
    unfold staff_line_body. rewrite Hnamed. cbn [negb]. cbv zeta.
    fold start_month.
    destruct (Z.leb_spec start_month month_num); [lia|].
    by rewrite Qcplus_0_r.
  - destruct (projection_inv self (λ _ _ _, True)
      (λ prefix row,
         let m := Z.of_nat (S (length prefix)) in
         Row.year_number row = year_num_of m
         ∧ Row.operating_expenses row
           = calculate_monthly_opex self m (year_num_of m)
               (month_in_year_of m)))
      as (st & rows & Hrun & _ & _ & Hlen & _ & HQ).
    { done. }
    { intros k st rows revenue carried cost0 _ Hst Hk _ _ _ row.
      split; [done|]. subst row. unfold month_row. simpl.
      rewrite Hst, Hk. by autorewrite with doc_rows. }
    eexists. split; [exact Hrun|]. rewrite projected_rows.
    intros m Hm Hstart.
    destruct (row_of_month rows (total_months self) m Hlen Hm)
      as (row & Hrow & _ & _ & Hidx).
    exists row. split; [done|].
    destruct (HQ _ row Hrow) as [Hyear Hopex]. cbv zeta in Hyear, Hopex.
    rewrite Hidx in Hyear, Hopex. split; [done|].
    rewrite Hopex. by apply Hactive.
Qed.

Lemma staff_line_cost_witness :
  calculate_monthly_opex (two_year_doc [unnamed_staff; engineer]) 16 2 4
  = calculate_monthly_opex (two_year_doc [unnamed_staff]) 16 2 4
    + (λ year_num : Z,
         if bool_decide (1 < year_num)%Z
         then flt (Staff.monthly_salary engineer)
              * (1 + flt (Staff.annual_increase engineer) / of_int 100)
                ^ Z.to_nat (year_num - 1)
              + flt (Staff.monthly_benefits engineer)
              + flt (Staff.vehicle_allowance engineer)
         else flt (Staff.monthly_salary engineer)
              + flt (Staff.monthly_benefits engineer)
              + flt (Staff.vehicle_allowance engineer)) 2%Z
  ∧ calculate_monthly_opex (two_year_doc [unnamed_staff; engineer]) 3 1 3
    = calculate_monthly_opex (two_year_doc [unnamed_staff]) 3 1 3
  ∧ ∃ doc,
      calculate_projections (two_year_doc [unnamed_staff; engineer]) = Ok doc
      ∧ ∃ row,
          monthly_projections doc !! Z.to_nat (16 - 1) = Some row
          ∧ Row.year_number row = year_num_of 16
          ∧ Row.operating_expenses row
            = calculate_monthly_opex (two_year_doc [unnamed_staff]) 16
                (year_num_of 16) (month_in_year_of 16)
              + (λ year_num : Z,
                   if bool_decide (1 < year_num)%Z
                   then flt (Staff.monthly_salary engineer)
                        * (1 + flt (Staff.annual_increase engineer)
                               / of_int 100)
                          ^ Z.to_nat (year_num - 1)
                        + flt (Staff.monthly_benefits engineer)
                        + flt (Staff.vehicle_allowance engineer)
                   else flt (Staff.monthly_salary engineer)
                        + flt (Staff.monthly_benefits engineer)
                        + flt (Staff.vehicle_allowance engineer))
                  (year_num_of 16).
Proof.
  destruct (staff_line_cost (two_year_doc [unnamed_staff; engineer])
              (two_year_doc [unnamed_staff]) [unnamed_staff] [] engineer
              eq_refl eq_refl eq_refl)
    as (Hactive & Hbefore & doc & Hrun & Hrows).
  refine (conj _ (conj _ _)).
  - apply (Hactive 16%Z 2%Z 4%Z). vm_compute. discriminate.
  - apply (Hbefore 3%Z 1%Z 3%Z). reflexivity.
  - exists doc. split; [exact Hrun|]. apply (Hrows 16%Z).
    + vm_compute. split; discriminate.
    + vm_compute. discriminate.
Defined.

(** ** Revenue lines without a known calculation type *)

(** X15: a revenue line with a revenue type but a calculation type other
    than Recurring and One-Time, anywhere among the revenue lines.  In
    every pass of calculate_monthly_revenue the line adds nothing to the
    returned total, yet the carried entry of its revenue type grows by its
    new sales on top of those of the other lines of the type.  In the run
    the line adds nothing to the revenue of any row, while the volume that
    enters month m contains m - 1 months of its new sales. *)
Theorem unknown_kind_still_counts (self : FinancialProjection)
    (pre post : list Revenue.line) (line : Revenue.line) :
  revenue_assumptions self = pre ++ line :: post →
  truthy_str (Revenue.revenue_type line) = true →
  Revenue.calculation_type line ≠ Some "Recurring"%string →
  Revenue.calculation_type line ≠ Some "One-Time"%string →
  let key := Revenue.revenue_type line in
  let sales := flt (Revenue.monthly_new_sales line) in
  (∀ month_num year_num month_in_year carried,
     let pass :=
       revenue_contributions month_num year_num month_in_year
         (revenue_assumptions self) carried in
     calculate_monthly_revenue self month_num year_num month_in_year carried
     = (sum_amounts pass.1, pass.2)
     ∧ pass.1 !! length pre = Some 0
     ∧ default 0 (pass.2 !! key)
       = default 0 (carried !! key) + type_sales (pre ++ post) key + sales)
  ∧ (∃ self',
       calculate_projections self = Ok self'
       ∧ ∀ m, (1 ≤ m ≤ total_months self)%Z →
           ∃ row st,
             monthly_projections self' !! Z.to_nat (m - 1) = Some row
             ∧ run_months self (Z.to_nat (m - 1)) = Ok st
             ∧ default 0 (Loop.carried_instances st !! key)
               = of_int (m - 1) * (type_sales (pre ++ post) key + sales)
             ∧ let pass :=
                 revenue_contributions m (year_num_of m) (month_in_year_of m)
                   (revenue_assumptions self) (Loop.carried_instances st) in
               Row.revenue row = sum_amounts pass.1
               ∧ pass.1 !! length pre = Some 0).
Proof.
  intros Hlines Hnamed Hrec Hone key sales.
  assert (Hzero : ∀ month_in_year instances price,
            monthly_revenue line month_in_year instances price = 0).
  { intros month_in_year instances price. unfold monthly_revenue.
    destruct (str_is (Revenue.calculation_type line) "Recurring") eqn:E1.
    { by apply str_is_spec in E1. }
    destruct (str_is (Revenue.calculation_type line) "One-Time") eqn:E2.
    { by apply str_is_spec in E2. }
    done. }
  split.
  - intros month_num year_num month_in_year carried pass.
    split; [|split].
    + unfold calculate_monthly_revenue.
      rewrite revenue_pass_contributions. by rewrite Qcplus_0_l.
    + subst pass. rewrite revenue_pass_amounts, Hlines.
      rewrite lookup_imap_middle, Hnamed. by rewrite Hzero.
    + subst pass. rewrite revenue_pass_entry, Hlines.
      rewrite type_sales_middle by done. fold key sales. ring.
  - destruct (run_passes self) as (rows & Hrun & Hlen & Hrows).
    eexists. split; [exact Hrun|]. rewrite projected_rows. intros m Hm.
    destruct (row_of_month rows (total_months self) m Hlen Hm)
      as (row & Hrow & _ & _ & _).
    destruct (Hrows _ row Hrow) as (st & Hst & Hvol & Hsum & Hpass & _).
    cbv zeta in Hsum, Hpass.
    replace (Z.of_nat (S (Z.to_nat (m - 1)))) with m in Hsum, Hpass by lia.
    exists row, st. split; [done|]. split; [done|]. split.
    + rewrite Hvol, Hlines, type_sales_middle by done.
      by replace (Z.of_nat (Z.to_nat (m - 1))) with (m - 1)%Z by lia.
    + cbv zeta. split; [done|]. rewrite Hpass.
      rewrite Hlines at 2. rewrite lookup_imap_middle.
      unfold revenue_amount. rewrite Hnamed. by rewrite Hzero.
Qed.

Lemma unknown_kind_still_counts_witness :
  ∃ self',
    calculate_projections (two_year_doc [engineer]) = Ok self'
    ∧ ∃ row st,
        monthly_projections self' !! Z.to_nat (5 - 1) = Some row
        ∧ run_months (two_year_doc [engineer]) (Z.to_nat (5 - 1)) = Ok st
        ∧ default 0 (Loop.carried_instances st
                       !! Revenue.revenue_type untyped_revenue)
          = of_int (5 - 1)
            * (type_sales ([subscriptions] ++ [setup_fee])
                 (Revenue.revenue_type untyped_revenue)
               + flt (Revenue.monthly_new_sales untyped_revenue))
        ∧ let pass :=
            revenue_contributions 5 (year_num_of 5) (month_in_year_of 5)
              (revenue_assumptions (two_year_doc [engineer]))
              (Loop.carried_instances st) in
          Row.revenue row = sum_amounts pass.1
          ∧ pass.1 !! length [subscriptions] = Some 0.
Proof.
  destruct (unknown_kind_still_counts (two_year_doc [engineer])
              [subscriptions] [setup_fee] untyped_revenue
              eq_refl eq_refl ltac:(discriminate) ltac:(discriminate))
    as (_ & self' & Hrun & Hrows).
  exists self'. split; [exact Hrun|].
  apply (Hrows 5%Z). vm_compute. split; discriminate.
Defined.
